(** * reset_db.py: the database reset utility of Edu-Resource

    A shallow embedding of [src/reset_db.py].  The script talks to three
    things outside itself: the console (print / input), the process
    (sys.argv, os.environ, sys.exit) and the MongoDB driver (MongoClient,
    ping, list_collection_names, drop, close).  Console and driver calls are
    recorded, in program order, in a trace of events; the database is a piece
    of state; the driver's failures are given by a [driver] record that says
    which call raises and with which message.

    Python [str] values are modelled by their UTF-8 encoding, as Rocq
    [string]s (sequences of bytes). *)

From Stdlib Require Import NArith ZArith Ascii String List Lia.
From stdpp Require Import base strings list gmap pretty.

Open Scope string_scope.
Open Scope list_scope.

(** ** Python strings *)

Module PyStr.

(** The newline character, written ["\n"] in the source. *)
Definition nl : string := String "010" EmptyString.

(** [s * n] for a string [s] and a count [n]. *)
Fixpoint repeat_str (s : string) (n : nat) : string :=
  match n with
  | O => ""
  | S k => s +:+ repeat_str s k
  end.

Definition ord (c : ascii) : N := N_of_ascii c.

(** The code points that [str.strip()] removes: CPython's
    [Py_UNICODE_ISSPACE], which is [str.isspace] on one character. *)
Definition Py_UNICODE_ISSPACE (ch : N) : bool :=
  (((9 <=? ch) && (ch <=? 13)) || ((28 <=? ch) && (ch <=? 31)) || (ch =? 32)
   || (ch =? 0x85) || (ch =? 0xA0) || (ch =? 0x1680)
   || ((0x2000 <=? ch) && (ch <=? 0x200A))
   || (ch =? 0x2028) || (ch =? 0x2029) || (ch =? 0x202F)
   || (ch =? 0x205F) || (ch =? 0x3000))%N.

(** UTF-8: classification of bytes and the code point of a two- or
    three-byte sequence. *)
Definition is_cont (c : ascii) : bool := (N.land (ord c) 0xC0 =? 0x80)%N.
Definition is_lead2 (c : ascii) : bool := (N.land (ord c) 0xE0 =? 0xC0)%N.
Definition is_lead3 (c : ascii) : bool := (N.land (ord c) 0xF0 =? 0xE0)%N.

Definition cp2 (c1 c2 : ascii) : N :=
  (N.lor (N.shiftl (N.land (ord c1) 0x1F) 6) (N.land (ord c2) 0x3F))%N.

Definition cp3 (c1 c2 c3 : ascii) : N :=
  (N.lor (N.shiftl (N.land (ord c1) 0x0F) 12)
         (N.lor (N.shiftl (N.land (ord c2) 0x3F) 6) (N.land (ord c3) 0x3F)))%N.

Definition space1 (c : ascii) : bool :=
  (ord c <? 0x80)%N && Py_UNICODE_ISSPACE (ord c).
Definition space2 (c1 c2 : ascii) : bool :=
  is_lead2 c1 && is_cont c2 && Py_UNICODE_ISSPACE (cp2 c1 c2).
Definition space3 (c1 c2 c3 : ascii) : bool :=
  is_lead3 c1 && is_cont c2 && is_cont c3 && Py_UNICODE_ISSPACE (cp3 c1 c2 c3).

(** [lstrip]: drop whitespace code points from the front. *)
Fixpoint lstrip_bytes (s : list ascii) : list ascii :=
  match s with
  | [] => []
  | c1 :: r1 =>
    if space1 c1 then lstrip_bytes r1
    else match r1 with
         | [] => s
         | c2 :: r2 =>
           if space2 c1 c2 then lstrip_bytes r2
           else match r2 with
                | [] => s
                | c3 :: r3 => if space3 c1 c2 c3 then lstrip_bytes r3 else s
                end
         end
  end.

(** [rstrip] works on the reversed byte sequence: the last code point is
    read backwards, continuation bytes first. *)
Fixpoint rstrip_rev (s : list ascii) : list ascii :=
  match s with
  | [] => []
  | c1 :: r1 =>
    if space1 c1 then rstrip_rev r1
    else match r1 with
         | [] => s
         | c2 :: r2 =>
           if space2 c2 c1 then rstrip_rev r2
           else match r2 with
                | [] => s
                | c3 :: r3 => if space3 c3 c2 c1 then rstrip_rev r3 else s
                end
         end
  end.

Definition rstrip_bytes (s : list ascii) : list ascii :=
  rev (rstrip_rev (rev s)).

(** [s.strip()] *)
Definition strip (s : string) : string :=
  string_of_list_ascii (rstrip_bytes (lstrip_bytes (list_ascii_of_string s))).

(** [s.split(sep)] for a one-character separator: the fields between the
    occurrences of [sep]; never an empty list. *)
Fixpoint split (sep : ascii) (s : string) : list string :=
  match s with
  | EmptyString => [""]
  | String c r =>
    if Ascii.eqb c sep then "" :: split sep r
    else match split sep r with
         | [] => [String c ""]
         | f :: fs => String c f :: fs
         end
  end.

(** [s.lower()] on ASCII text: the letters [A] to [Z] become [a] to [z].
    The bytes of other code points are left as they are, which is what
    Python does on ASCII text only; what is proved with [lower] is stated
    for ASCII text ([is_ascii]). *)
Definition lower_byte (c : ascii) : ascii :=
  if ((65 <=? ord c) && (ord c <=? 90))%N then ascii_of_N (ord c + 32) else c.

Fixpoint lower (s : string) : string :=
  match s with
  | EmptyString => EmptyString
  | String c r => String (lower_byte c) (lower r)
  end.

Fixpoint is_ascii (s : string) : bool :=
  match s with
  | EmptyString => true
  | String c r => (ord c <? 0x80)%N && is_ascii r
  end.

End PyStr.

Import PyStr.

(** ** Exceptions, events, state *)

(** The two kinds of exception the script meets: [Exception] stands for any
    instance of a subclass of Python's [Exception], carrying its [str()];
    [SystemExit] is what [sys.exit] raises, which [except Exception] does not
    catch. *)
Inductive exn : Type :=
| Exception (msg : string)
| SystemExit (code : Z).

Inductive outcome (A : Type) : Type :=
| Return (a : A)
| Raise (e : exn).
Arguments Return {A} a.
Arguments Raise {A} e.

(** What a driver call answered: a value, or the message of the exception
    it raised. *)
Inductive result (A : Type) : Type :=
| Ok (a : A)
| Err (msg : string).
Arguments Ok {A} a.
Arguments Err {A} msg.

(** The observable steps of a run, in program order. *)
Inductive event : Type :=
| EvPrint (line : string)                      (* print(line) *)
| EvInput (prompt : string)                    (* input(prompt) *)
| EvConnect (uri : string) (r : result unit)   (* MongoClient(uri) *)
| EvDatabase (name : string) (r : result unit) (* client[name] *)
| EvPing (r : result unit)                     (* client.admin.command('ping') *)
| EvList (r : result (list string))            (* db.list_collection_names() *)
| EvDrop (coll : string) (r : result unit)     (* db[coll].drop() *)
| EvClose.                                     (* client.close() *)

(** The failures of the driver: for each call, the message of the exception
    it raises, if it raises one.  [client.close()] returns normally. *)
Record driver : Type := mkDriver {
  connect_error : string -> option string;
  database_error : string -> option string;
  ping_error : option string;
  list_error : option string;
  drop_error : string -> option string;
}.

(** The state a run can change: the server's databases (each a list of
    collection names, in the order the listing call enumerates them), the
    lines waiting on standard input, and the names bound in the frame of the
    running function (what [locals()] would show). *)
Record state : Type := mkState {
  server : gmap string (list string);
  stdin : list string;
  locals : gset string;
}.

Definition set_server (f : gmap string (list string) -> gmap string (list string))
    (s : state) : state :=
  mkState (f (server s)) (stdin s) (locals s).
Definition set_stdin (l : list string) (s : state) : state :=
  mkState (server s) l (locals s).
Definition set_locals (l : gset string) (s : state) : state :=
  mkState (server s) (stdin s) l.

(** The collections of a database; a database that does not exist has none. *)
Definition collections_of (srv : gmap string (list string)) (db : string)
    : list string :=
  default [] (srv !! db).

(** The server after one collection of one database has been dropped. *)
Definition drop_collection (db coll : string)
    (srv : gmap string (list string)) : gmap string (list string) :=
  alter (filter (λ c, c ≠ coll)) db srv.

(** ** The monad of the script: state, exceptions and a trace *)

Definition M (A : Type) : Type := state -> outcome A * state * list event.

#[global] Instance M_ret : MRet M := λ A a s, (Return a, s, []).

#[global] Instance M_bind : MBind M := λ A B f m s,
  match m s with
  | (Return a, s1, t1) =>
      match f a s1 with
      | (o, s2, t2) => (o, s2, t1 ++ t2)
      end
  | (Raise e, s1, t1) => (Raise e, s1, t1)
  end.

Definition raise {A : Type} (e : exn) : M A := λ s, (Raise e, s, []).

Definition emit (e : event) : M unit := λ s, (Return tt, s, [e]).

(** [try: body / except Exception as e: handler(str(e))] *)
Definition try_except {A : Type} (body : M A) (handler : string -> M A) : M A :=
  λ s,
  match body s with
  | (Raise (Exception msg), s1, t1) =>
      match handler msg s1 with
      | (o, s2, t2) => (o, s2, t1 ++ t2)
      end
  | r => r
  end.

(** [try: body / finally: fin]: [fin] always runs; an exception of [fin]
    replaces the outcome of [body]. *)
Definition try_finally {A : Type} (body : M A) (fin : M unit) : M A :=
  λ s,
  match body s with
  | (o, s1, t1) =>
      match fin s1 with
      | (Return _, s2, t2) => (o, s2, t1 ++ t2)
      | (Raise e, s2, t2) => (Raise e, s2, t1 ++ t2)
      end
  end.

(** [for x in l: body(x)] *)
Fixpoint for_ {A : Type} (l : list A) (body : A -> M unit) : M unit :=
  match l with
  | [] => mret tt
  | x :: r => body x ;; for_ r body
  end.

(** A function call: the callee runs in a frame of its own. *)
Definition call {A : Type} (body : M A) : M A :=
  λ s,
  match body (set_locals ∅ s) with
  | (o, s1, t1) => (o, set_locals (locals s) s1, t1)
  end.

Definition bind_local (name : string) : M unit :=
  λ s, (Return tt, set_locals ({[name]} ∪ locals s) s, []).

(** [name in locals()] *)
Definition in_locals (name : string) : M bool :=
  λ s, (Return (bool_decide (name ∈ locals s)), s, []).

(** ** Console and process *)

Definition print (line : string) : M unit := emit (EvPrint line).

(** [input(prompt)]: the next line of standard input, [EOFError] when there
    is none. *)
Definition input (prompt : string) : M string :=
  λ s,
  match stdin s with
  | [] => (Raise (Exception "EOF when reading a line"), s, [EvInput prompt])
  | l :: r => (Return l, set_stdin r s, [EvInput prompt])
  end.

Definition sys_exit {A : Type} (code : Z) : M A := raise (SystemExit code).

(** ** The script *)

(** [MONGODB_URI.split('/')[-1].split('?')[0]]: the text after the last
    ['/'] of the URI, up to its first ['?'].  [split] never returns an empty
    list (lemma [split_not_nil]), so neither index can fail. *)
Definition db_name (uri : string) : string :=
  default "" (head (split "?" (default "" (last (split "/" uri))))).

Section Script.

(** [os.environ] once [load_dotenv()] has run, [sys.argv], and the driver. *)
Variable environ : gmap string string.
Variable argv : list string.
Variable drv : driver.

(** [os.getenv('MONGODB_URI', 'mongodb://localhost:27017/edu-resource')] *)
Definition MONGODB_URI : string :=
  default "mongodb://localhost:27017/edu-resource" (environ !! "MONGODB_URI").

(** *** The driver calls *)

Definition driver_call (ev : result unit -> event) (err : option string)
    : M unit :=
  λ s,
  match err with
  | Some msg => (Raise (Exception msg), s, [ev (Err msg)])
  | None => (Return tt, s, [ev (Ok tt)])
  end.

Definition MongoClient (uri : string) : M unit :=
  driver_call (EvConnect uri) (connect_error drv uri).

Definition get_database (name : string) : M unit :=
  driver_call (EvDatabase name) (database_error drv name).

Definition ping : M unit :=
  driver_call EvPing (ping_error drv).

Definition list_collection_names (db : string) : M (list string) :=
  λ s,
  match list_error drv with
  | Some msg => (Raise (Exception msg), s, [EvList (Err msg)])
  | None =>
      let names := collections_of (server s) db in
      (Return names, s, [EvList (Ok names)])
  end.

(** A drop that raises leaves the collection in place. *)
Definition drop (db coll : string) : M unit :=
  λ s,
  match drop_error drv coll with
  | Some msg => (Raise (Exception msg), s, [EvDrop coll (Err msg)])
  | None => (Return tt, set_server (drop_collection db coll) s,
             [EvDrop coll (Ok tt)])
  end.

Definition close : M unit := emit EvClose.

(** *** The lines of the transcript that the properties name *)

Definition rule : string := repeat_str "=" 60.
Definition prompt_line : string :=
  nl +:+ "Are you sure you want to proceed? Type 'YES' to confirm: ".
Definition cancelled_line : string := nl +:+ "❌ Operation cancelled.".
Definition empty_line : string :=
  nl +:+ "📭 Database is already empty. No collections to drop.".
Definition dropped_line (coll : string) : string := "   ✅ Dropped: " +:+ coll.
Definition error_line (msg : string) : string := nl +:+ "❌ Error: " +:+ msg.
Definition closed_line : string := nl +:+ "📴 MongoDB connection closed.".

(** *** confirm_reset *)

Definition confirm_reset : M bool :=
  call (
    print (nl +:+ rule);;
    print "⚠️  WARNING: DATABASE RESET ⚠️";;
    print rule;;
    print (nl +:+ "This will DELETE ALL DATA from: " +:+ MONGODB_URI);;
    print (nl +:+ "The following collections will be dropped:");;
    print "  - users";;
    print "  - courses";;
    print "  - assignments";;
    print "  - submissions";;
    print "  - enrollments";;
    print "  - messages";;
    print "  - notifications";;
    print "  - And any other collections in the database";;
    print (nl +:+ rule);;
    response ← input prompt_line;
    mret (bool_decide (strip response = "YES"))).

(** *** reset_database *)

Definition reset_database_try : M bool :=
  print (nl +:+ "📡 Connecting to MongoDB: " +:+ MONGODB_URI);;
  MongoClient MONGODB_URI;;
  bind_local "client";;
  let name := db_name MONGODB_URI in
  get_database name;;
  ping;;
  print "✅ Successfully connected to MongoDB!";;
  collections ← list_collection_names name;
  match collections with
  | [] =>
      print empty_line;;
      mret true
  | _ =>
      print (nl +:+ "📋 Found " +:+ pretty (length collections)
                +:+ " collection(s):");;
      for_ collections (λ coll, print ("   - " +:+ coll));;
      print (nl +:+ "🗑️  Dropping collections...");;
      for_ collections (λ collection_name,
        drop name collection_name;;
        print (dropped_line collection_name));;
      print (nl +:+ rule);;
      print "✅ DATABASE RESET COMPLETE!";;
      print rule;;
      print (nl +:+ "All collections in '" +:+ name +:+ "' have been dropped.");;
      print "You can now restart your application with a fresh database.";;
      mret true
  end.

Definition reset_database_except (e : string) : M bool :=
  print (error_line e);;
  mret false.

Definition reset_database_finally : M unit :=
  bound ← in_locals "client";
  if bound : bool then
    close;;
    print closed_line
  else mret tt.

Definition reset_database : M bool :=
  call (try_finally (try_except reset_database_try reset_database_except)
                    reset_database_finally).

(** *** reset_with_seed *)

Definition seed_prompt : string :=
  nl +:+ "Would you like to create an admin user? (y/n): ".
Definition seed_hint : string :=
  nl +:+ "💡 Run 'npm run create-admin' to create the admin user.".

Definition reset_with_seed : M unit :=
  call (
    reset_database;;
    response ← input seed_prompt;
    if bool_decide (lower response = "y") then print seed_hint
    else mret tt).

(** *** main *)

Definition force : bool :=
  bool_decide ("--force" ∈ argv) || bool_decide ("-f" ∈ argv).

Definition main : M unit :=
  print (nl +:+ rule);;
  print "     EDU-RESOURCE DATABASE RESET UTILITY";;
  print rule;;
  (if negb force then
     confirmed ← confirm_reset;
     if negb confirmed : bool then
       print cancelled_line;;
       sys_exit 0
     else mret tt
   else mret tt : M unit);;
  success ← reset_database;
  sys_exit (if success : bool then 0 else 1)%Z.

(** The status with which the interpreter ends the process: the code of
    [SystemExit]; 1 after an uncaught exception; 0 when [main] returns. *)
Definition exit_status {A : Type} (o : outcome A) : Z :=
  match o with
  | Return _ => 0
  | Raise (SystemExit code) => code
  | Raise (Exception _) => 1
  end.

(** [if __name__ == '__main__': main()] *)
Definition run (s : state) : Z * state * list event :=
  match main s with
  | (o, s1, t) => (exit_status o, s1, t)
  end.

End Script.

(** * Observations and paths *)

(** ** Reading a trace *)

(** The collections on which a drop was invoked. *)
Definition drops (t : list event) : list string :=
  t ≫= λ e, match e with EvDrop c _ => [c] | _ => [] end.

(** The collections whose drop returned normally. *)
Definition dropped (t : list event) : list string :=
  t ≫= λ e, match e with EvDrop c (Ok _) => [c] | _ => [] end.

(** The drops that raised, each with the message of its exception. *)
Definition drop_errors (t : list event) : list (string * string) :=
  t ≫= λ e, match e with EvDrop c (Err m) => [(c, m)] | _ => [] end.

(** The lines printed. *)
Definition prints (t : list event) : list string :=
  t ≫= λ e, match e with EvPrint l => [l] | _ => [] end.

(** The messages of the exceptions that driver calls raised. *)
Definition raised (t : list event) : list string :=
  t ≫= λ e,
    match e with
    | EvConnect _ (Err m) | EvDatabase _ (Err m) | EvPing (Err m)
    | EvList (Err m) | EvDrop _ (Err m) => [m]
    | _ => []
    end.

Definition is_driver_call (e : event) : bool :=
  match e with
  | EvPrint _ | EvInput _ => false
  | _ => true
  end.

Definition is_input (e : event) : bool :=
  match e with EvInput _ => true | _ => false end.

(** The prompts at which a line of standard input was asked for. *)
Definition prompts (t : list event) : list string :=
  t ≫= λ e, match e with EvInput p => [p] | _ => [] end.

(** Lines are told apart by how they start. *)
Definition error_prefix : string := nl +:+ "❌ Error: ".
Definition dropped_prefix : string := "   ✅ Dropped: ".

Definition error_lines (t : list event) : list string :=
  List.filter (String.prefix error_prefix) (prints t).

Definition dropped_lines (t : list event) : list string :=
  List.filter (String.prefix dropped_prefix) (prints t).

Definition closed_lines (t : list event) : list string :=
  List.filter (String.prefix closed_line) (prints t).

Definition complete_line : string := "✅ DATABASE RESET COMPLETE!".

Definition complete_lines (t : list event) : list string :=
  List.filter (String.prefix complete_line) (prints t).

Definition cancelled_lines (t : list event) : list string :=
  List.filter (String.prefix cancelled_line) (prints t).

(** The answers of the connect, of the liveness check and of the listing
    call. *)
Definition connects (t : list event) : list (string * result unit) :=
  t ≫= λ e, match e with EvConnect u r => [(u, r)] | _ => [] end.

Definition pings (t : list event) : list (result unit) :=
  t ≫= λ e, match e with EvPing r => [r] | _ => [] end.

Definition listed (t : list event) : list (result (list string)) :=
  t ≫= λ e, match e with EvList r => [r] | _ => [] end.

(** How many times the connection was closed. *)
Definition closes (t : list event) : nat :=
  length (t ≫= λ e, match e with EvClose => [tt] | _ => [] end).

(** ** The paths through [reset_database]

    What the routine answers, the server it leaves and the trace it
    produces, for each way the driver can behave.  Lemma
    [reset_database_path] shows that every call follows one of them. *)

(** The server after the collections [cs] of [db] were dropped one by one. *)
Fixpoint drop_all (db : string) (cs : list string)
    (srv : gmap string (list string)) : gmap string (list string) :=
  match cs with
  | [] => srv
  | c :: r => drop_all db r (drop_collection db c srv)
  end.

Definition connecting_line (uri : string) : string :=
  nl +:+ "📡 Connecting to MongoDB: " +:+ uri.
Definition connected_line : string := "✅ Successfully connected to MongoDB!".
Definition found_line (n : nat) : string :=
  nl +:+ "📋 Found " +:+ pretty n +:+ " collection(s):".
Definition listed_line (coll : string) : string := "   - " +:+ coll.
Definition dropping_line : string := nl +:+ "🗑️  Dropping collections...".

(** Up to the liveness check. *)
Definition opening (uri : string) : list event :=
  [EvPrint (connecting_line uri); EvConnect uri (Ok tt);
   EvDatabase (db_name uri) (Ok tt)].

(** From the liveness check to the first drop. *)
Definition listing (names : list string) : list event :=
  [EvPing (Ok tt); EvPrint connected_line; EvList (Ok names);
   EvPrint (found_line (length names))]
  ++ (EvPrint ∘ listed_line <$> names) ++ [EvPrint dropping_line].

(** The drops that returned, each with its acknowledgment. *)
Definition dropping (names : list string) : list event :=
  names ≫= λ c, [EvDrop c (Ok tt); EvPrint (dropped_line c)].

Definition complete (name : string) : list event :=
  [EvPrint (nl +:+ rule); EvPrint "✅ DATABASE RESET COMPLETE!"; EvPrint rule;
   EvPrint (nl +:+ "All collections in '" +:+ name +:+ "' have been dropped.");
   EvPrint "You can now restart your application with a fresh database."].

(** The [finally] block when [client] is bound. *)
Definition closing : list event := [EvClose; EvPrint closed_line].

Inductive reset_path (drv : driver) (uri : string)
    (srv : gmap string (list string))
    : bool -> gmap string (list string) -> list event -> Prop :=
| path_connect_raises msg :
    connect_error drv uri = Some msg ->
    reset_path drv uri srv false srv
      [EvPrint (connecting_line uri); EvConnect uri (Err msg);
       EvPrint (error_line msg)]
| path_database_raises msg :
    connect_error drv uri = None ->
    database_error drv (db_name uri) = Some msg ->
    reset_path drv uri srv false srv
      ([EvPrint (connecting_line uri); EvConnect uri (Ok tt);
        EvDatabase (db_name uri) (Err msg); EvPrint (error_line msg)]
       ++ closing)
| path_ping_raises msg :
    connect_error drv uri = None ->
    database_error drv (db_name uri) = None ->
    ping_error drv = Some msg ->
    reset_path drv uri srv false srv
      (opening uri ++ [EvPing (Err msg); EvPrint (error_line msg)] ++ closing)
| path_list_raises msg :
    connect_error drv uri = None ->
    database_error drv (db_name uri) = None ->
    ping_error drv = None ->
    list_error drv = Some msg ->
    reset_path drv uri srv false srv
      (opening uri
       ++ [EvPing (Ok tt); EvPrint connected_line; EvList (Err msg);
           EvPrint (error_line msg)]
       ++ closing)
| path_empty :
    connect_error drv uri = None ->
    database_error drv (db_name uri) = None ->
    ping_error drv = None ->
    list_error drv = None ->
    collections_of srv (db_name uri) = [] ->
    reset_path drv uri srv true srv
      (opening uri
       ++ [EvPing (Ok tt); EvPrint connected_line; EvList (Ok []);
           EvPrint empty_line]
       ++ closing)
| path_all_dropped names :
    connect_error drv uri = None ->
    database_error drv (db_name uri) = None ->
    ping_error drv = None ->
    list_error drv = None ->
    collections_of srv (db_name uri) = names ->
    names ≠ [] ->
    Forall (λ c, drop_error drv c = None) names ->
    reset_path drv uri srv true (drop_all (db_name uri) names srv)
      (opening uri ++ listing names ++ dropping names
       ++ complete (db_name uri) ++ closing)
| path_drop_raises pre c post msg :
    connect_error drv uri = None ->
    database_error drv (db_name uri) = None ->
    ping_error drv = None ->
    list_error drv = None ->
    collections_of srv (db_name uri) = pre ++ c :: post ->
    Forall (λ c, drop_error drv c = None) pre ->
    drop_error drv c = Some msg ->
    reset_path drv uri srv false (drop_all (db_name uri) pre srv)
      (opening uri ++ listing (pre ++ c :: post) ++ dropping pre
       ++ [EvDrop c (Err msg); EvPrint (error_line msg)] ++ closing).

(** ** The paths through [main] *)

Definition banner : list event :=
  [EvPrint (nl +:+ rule); EvPrint "     EDU-RESOURCE DATABASE RESET UTILITY";
   EvPrint rule].

(** What [confirm_reset] shows, the prompt last. *)
Definition warning (uri : string) : list event :=
  [EvPrint (nl +:+ rule); EvPrint "⚠️  WARNING: DATABASE RESET ⚠️";
   EvPrint rule;
   EvPrint (nl +:+ "This will DELETE ALL DATA from: " +:+ uri);
   EvPrint (nl +:+ "The following collections will be dropped:");
   EvPrint "  - users"; EvPrint "  - courses"; EvPrint "  - assignments";
   EvPrint "  - submissions"; EvPrint "  - enrollments";
   EvPrint "  - messages"; EvPrint "  - notifications";
   EvPrint "  - And any other collections in the database";
   EvPrint (nl +:+ rule); EvInput prompt_line].

Definition status_of (success : bool) : Z := if success then 0 else 1.

Inductive run_path (argv : list string) (drv : driver) (uri : string)
    (s : state) : Z -> state -> list event -> Prop :=
| run_forced b srv' t :
    force argv = true ->
    reset_path drv uri (server s) b srv' t ->
    run_path argv drv uri s (status_of b)
      (mkState srv' (stdin s) (locals s)) (banner ++ t)
| run_no_answer :
    force argv = false ->
    stdin s = [] ->
    run_path argv drv uri s 1 s (banner ++ warning uri)
| run_cancelled response rest :
    force argv = false ->
    stdin s = response :: rest ->
    strip response ≠ "YES" ->
    run_path argv drv uri s 0 (set_stdin rest s)
      (banner ++ warning uri ++ [EvPrint cancelled_line])
| run_confirmed response rest b srv' t :
    force argv = false ->
    stdin s = response :: rest ->
    strip response = "YES" ->
    reset_path drv uri (server s) b srv' t ->
    run_path argv drv uri s (status_of b)
      (mkState srv' rest (locals s)) (banner ++ warning uri ++ t).

(** ** The database name, as the specification words it

    The specification calls the database name the path segment of the URI,
    stripped of any query-string suffix.  In
    [scheme://authority/path?query] the authority ends at the first ['/'] or
    ['?'] after ["://"], and the query starts at the first ['?']. *)

(** The text after the first ["://"]; the whole text when there is none. *)
Fixpoint after_scheme_from (s : string) : option string :=
  match s with
  | EmptyString => None
  | String c r =>
      if String.prefix "://" s
      then Some (String.substring 3 (String.length s - 3) s)
      else after_scheme_from r
  end.

Definition after_scheme (uri : string) : string :=
  default uri (after_scheme_from uri).

(** The text before, and from, the first character for which [stop] holds. *)
Fixpoint take_until (stop : ascii -> bool) (s : string) : string :=
  match s with
  | EmptyString => ""
  | String c r => if stop c then "" else String c (take_until stop r)
  end.

Fixpoint drop_until (stop : ascii -> bool) (s : string) : string :=
  match s with
  | EmptyString => ""
  | String c r => if stop c then s else drop_until stop r
  end.

Definition is_slash (c : ascii) : bool := Ascii.eqb c "/".
Definition is_question (c : ascii) : bool := Ascii.eqb c "?".

Definition uri_path_segment (uri : string) : string :=
  match drop_until (λ c, is_slash c || is_question c) (after_scheme uri) with
  | String c path => if is_slash c then take_until is_question path else ""
  | EmptyString => ""
  end.

(** Whether a character occurs in a string. *)
Fixpoint has_char (c : ascii) (s : string) : bool :=
  match s with
  | EmptyString => false
  | String x r => Ascii.eqb x c || has_char c r
  end.

(** ** Inputs for the examples *)

(** A driver that never raises. *)
Definition sound_driver : driver :=
  mkDriver (λ _, None) (λ _, None) None None (λ _, None).

(** A server with the database of the default URI, holding two
    collections. *)
Definition two_collections : gmap string (list string) :=
  {[ "edu-resource" := ["users"; "courses"] ]}.

Definition state_of (srv : gmap string (list string)) (answers : list string)
    : state :=
  mkState srv answers ∅.

(** A driver that refuses to drop the collection [users]. *)
Definition users_locked : driver :=
  mkDriver (λ _, None) (λ _, None) None None
    (λ c, if String.eqb c "users" then Some "not authorized on users"
          else None).

(** A driver that refuses to drop the collection [courses]. *)
Definition courses_locked : driver :=
  mkDriver (λ _, None) (λ _, None) None None
    (λ c, if String.eqb c "courses" then Some "not authorized on courses"
          else None).

(** A driver whose [MongoClient] accepts only URIs that start with
    [mongodb]. *)
Definition strict_driver : driver :=
  mkDriver
    (λ uri, if String.prefix "mongodb" uri then None
            else Some "Invalid URI scheme")
    (λ _, None) None None (λ _, None).

(** A driver whose server does not answer the liveness check. *)
Definition unreachable : driver :=
  mkDriver (λ _, None) (λ _, None) (Some "No servers found yet") None
    (λ _, None).

(** ** Whitespace, for reading [strip]

    A sequence of bytes that encodes whitespace code points only. *)
Inductive whitespace : list ascii -> Prop :=
| ws_nil : whitespace []
| ws_one c l :
    space1 c = true -> whitespace l -> whitespace (c :: l)
| ws_two c1 c2 l :
    space2 c1 c2 = true -> whitespace l -> whitespace (c1 :: c2 :: l)
| ws_three c1 c2 c3 l :
    space3 c1 c2 c3 = true -> whitespace l ->
    whitespace (c1 :: c2 :: c3 :: l).

(** * Properties *)

(** ** Running the monad, one call at a time *)

Section Running.

Context {A B : Type}.

Lemma bind_run (m : M A) (f : A -> M B) (s : state) :
  (m ≫= f) s =
  match m s with
  | (Return a, s1, t1) =>
      match f a s1 with
      | (o, s2, t2) => (o, s2, t1 ++ t2)
      end
  | (Raise e, s1, t1) => (Raise e, s1, t1)
  end.
Proof. reflexivity. Qed.

Lemma ret_run (a : A) (s : state) : (mret a : M A) s = (Return a, s, []).
Proof. reflexivity. Qed.

End Running.

Lemma print_run (line : string) (s : state) :
  print line s = (Return tt, s, [EvPrint line]).
Proof. reflexivity. Qed.

Lemma bind_local_run (name : string) (s : state) :
  bind_local name s = (Return tt, set_locals ({[name]} ∪ locals s) s, []).
Proof. reflexivity. Qed.

Lemma close_run (s : state) : close s = (Return tt, s, [EvClose]).
Proof. reflexivity. Qed.

Lemma for_print (f : string -> string) (l : list string) (s : state) :
  for_ l (λ x, print (f x)) s = (Return tt, s, (λ x, EvPrint (f x)) <$> l).
Proof.
  induction l as [|x l IH]; [reflexivity|].
  cbn [for_]. rewrite bind_run, print_run, IH. reflexivity.
Qed.

(** One step of symbolic execution: the first call of a sequence. *)
Ltac mstep :=
  rewrite bind_run;
  first [ rewrite print_run | rewrite bind_local_run | rewrite close_run
        | rewrite ret_run | rewrite for_print ];
  cbv beta iota.


(** Traces are compared with their appends associated to the right. *)
Ltac norm_trace :=
  repeat first [ rewrite <- (assoc_L (++)) | progress cbn [app] ].
Ltac norm_trace_in H :=
  repeat first [ rewrite <- (assoc_L (++)) in H | progress cbn [app] in H ].

(** ** The drop loop *)

Section DropLoop.

Variable drv : driver.
Variable db : string.

Let body : string -> M unit :=
  λ collection_name,
    drop drv db collection_name;; print (dropped_line collection_name).

Lemma drop_loop_returns (names : list string) (s : state) :
  Forall (λ c, drop_error drv c = None) names ->
  for_ names body s
  = (Return tt, set_server (drop_all db names) s, dropping names).
Proof.
  intros Hok. revert s.
  induction Hok as [|c names Hc _ IH]; intros s.
  - destruct s; reflexivity.
  - cbn [for_]. rewrite bind_run. unfold body at 1.
    rewrite bind_run. unfold drop at 1. rewrite Hc, print_run, IH.
    destruct s; reflexivity.
Qed.

Lemma drop_loop_raises (pre post : list string) (c msg : string) (s : state) :
  Forall (λ c, drop_error drv c = None) pre ->
  drop_error drv c = Some msg ->
  for_ (pre ++ c :: post) body s
  = (Raise (Exception msg), set_server (drop_all db pre) s,
     dropping pre ++ [EvDrop c (Err msg)]).
Proof.
  intros Hok Hc. revert s.
  induction Hok as [|x pre Hx _ IH]; intros s.
  - cbn [app for_]. rewrite bind_run. unfold body at 1.
    rewrite bind_run. unfold drop at 1. rewrite Hc.
    destruct s; reflexivity.
  - cbn [app for_]. rewrite bind_run. unfold body at 1.
    rewrite bind_run. unfold drop at 1. rewrite Hx, print_run, IH.
    destruct s; reflexivity.
Qed.

(** Either every drop returns, or there is a first one that raises. *)
Lemma first_drop_error (names : list string) :
  Forall (λ c, drop_error drv c = None) names
  ∨ ∃ pre c post msg,
      names = pre ++ c :: post
      ∧ Forall (λ c, drop_error drv c = None) pre
      ∧ drop_error drv c = Some msg.
Proof.
  induction names as [|x names IH]; [left; constructor|].
  destruct (drop_error drv x) as [msg|] eqn:Hx.
  - right. exists [], x, names, msg. repeat split; [constructor | exact Hx].
  - destruct IH as [Hok | (pre & c & post & msg & -> & Hpre & Hc)].
    + left. constructor; assumption.
    + right. exists (x :: pre), c, post, msg.
      repeat split; [constructor; assumption | exact Hc].
Qed.

End DropLoop.

(** ** Every call of [reset_database] follows one of the paths *)

Section ResetDatabase.

Variable environ : gmap string string.
Variable drv : driver.

Let uri : string := MONGODB_URI environ.

Lemma finally_bound (s : state) :
  "client" ∈ locals s ->
  reset_database_finally s = (Return tt, s, closing).
Proof.
  intros Hin. unfold reset_database_finally.
  rewrite bind_run. unfold in_locals at 1.
  rewrite bool_decide_eq_true_2 by exact Hin.
  rewrite bind_run, close_run, print_run. reflexivity.
Qed.

Lemma finally_unbound (s : state) :
  "client" ∉ locals s ->
  reset_database_finally s = (Return tt, s, []).
Proof.
  intros Hin. unfold reset_database_finally.
  rewrite bind_run. unfold in_locals at 1.
  rewrite bool_decide_eq_false_2 by exact Hin.
  reflexivity.
Qed.

(** The [try] block, from a frame in which nothing is bound yet. *)
Lemma try_block_path (srv : gmap string (list string)) (inp : list string) :
  ∃ (o : outcome bool) (srv' : gmap string (list string)) (t : list event)
    (bound : bool),
    reset_database_try environ drv (mkState srv inp ∅)
    = (o, mkState srv' inp (if bound then {["client"]} ∪ ∅ else ∅), t)
    ∧ match o with
      | Return b =>
          bound = true ∧ b = true
          ∧ reset_path drv uri srv true srv' (t ++ closing)
      | Raise (Exception msg) =>
          reset_path drv uri srv false srv'
            (t ++ [EvPrint (error_line msg)] ++ (if bound then closing else []))
      | Raise (SystemExit _) => False
      end.
Proof.
  unfold reset_database_try. fold uri.
  mstep. rewrite bind_run. unfold MongoClient at 1, driver_call.
  destruct (connect_error drv uri) as [m|] eqn:Hconnect; cbv beta iota.
  { exists (Raise (Exception m)), srv, [EvPrint (connecting_line uri); EvConnect uri (Err m)], false.
    split; [reflexivity|]. apply path_connect_raises, Hconnect. }
  mstep. rewrite bind_run. unfold get_database at 1, driver_call.
  destruct (database_error drv (db_name uri)) as [m|] eqn:Hdatabase;
    cbv beta iota.
  { eexists (Raise (Exception m)), srv, _, true.
    split; [reflexivity|]. apply path_database_raises; assumption. }
  rewrite bind_run. unfold ping at 1, driver_call.
  destruct (ping_error drv) as [m|] eqn:Hping; cbv beta iota.
  { eexists (Raise (Exception m)), srv, _, true.
    split; [reflexivity|]. apply (path_ping_raises drv uri srv m); assumption. }
  mstep. rewrite bind_run. unfold list_collection_names at 1.
  destruct (list_error drv) as [m|] eqn:Hlist; cbv beta iota zeta.
  { eexists (Raise (Exception m)), srv, _, true.
    split; [reflexivity|]. apply (path_list_raises drv uri srv m); assumption. }
  cbn [server set_locals].
  destruct (collections_of srv (db_name uri)) as [|c0 names0] eqn:Hnames;
    cbv beta iota.
  { mstep. rewrite ret_run.
    eexists (Return true), srv, _, true.
    split; [reflexivity|]. split; [reflexivity|]. split; [reflexivity|].
    apply (path_empty drv uri srv); assumption. }
  set (names := c0 :: names0) in *.
  mstep. rewrite bind_run, (for_print listed_line). cbv beta iota. mstep.
  rewrite bind_run.
  destruct (first_drop_error drv names)
    as [Hok | (pre & c & post & m & Heq & Hpre & Hc)].
  - rewrite (drop_loop_returns drv (db_name uri) names _ Hok). cbv beta iota.
    do 5 mstep. rewrite ret_run.
    eexists (Return true), (drop_all (db_name uri) names srv), _, true.
    split; [reflexivity|]. split; [reflexivity|]. split; [reflexivity|].
    assert (Hne : names ≠ []) by discriminate.
    pose proof (path_all_dropped drv uri srv names Hconnect Hdatabase Hping
                  Hlist Hnames Hne Hok) as Hpath.
    unfold opening, listing, complete in *.
    norm_trace_in Hpath. norm_trace. exact Hpath.
  - rewrite Heq in *.
    rewrite (drop_loop_raises drv (db_name uri) pre post c m _ Hpre Hc).
    cbv beta iota.
    eexists (Raise (Exception m)), (drop_all (db_name uri) pre srv), _, true.
    split; [reflexivity|].
    pose proof (path_drop_raises drv uri srv pre c post m Hconnect Hdatabase
                  Hping Hlist Hnames Hpre Hc) as Hpath.
    unfold opening, listing in *.
    norm_trace_in Hpath. norm_trace. exact Hpath.
Qed.

Lemma reset_database_path (s : state) :
  ∃ (b : bool) (srv' : gmap string (list string)) (t : list event),
    reset_database environ drv s
    = (Return b, mkState srv' (stdin s) (locals s), t)
    ∧ reset_path drv uri (server s) b srv' t.
Proof.
  destruct s as [srv inp loc].
  destruct (try_block_path srv inp) as (o & srv' & t & bound & Hrun & Hpath).
  unfold reset_database, call, try_finally, try_except, set_locals.
  cbn [server stdin locals]. rewrite Hrun.
  destruct o as [b | [msg | code]]; [| | contradiction].
  - destruct Hpath as (-> & -> & Hpath).
    rewrite finally_bound by (cbn [locals]; set_solver).
    exists true, srv', (t ++ closing). split; [reflexivity | exact Hpath].
  - unfold reset_database_except. rewrite bind_run, print_run, ret_run.
    cbv beta iota. destruct bound.
    + rewrite finally_bound by (cbn [locals]; set_solver).
      exists false, srv', ((t ++ [EvPrint (error_line msg)]) ++ closing).
      split; [reflexivity|]. rewrite <- (assoc_L (++)). exact Hpath.
    + rewrite finally_unbound by (cbn [locals]; set_solver).
      exists false, srv', ((t ++ [EvPrint (error_line msg)]) ++ []).
      split; [reflexivity|]. rewrite <- (assoc_L (++)). exact Hpath.
Qed.

End ResetDatabase.

(** ** Every run follows one of the paths of [main] *)

Ltac exit_run :=
  unfold sys_exit, raise; cbv beta iota; cbn [app exit_status status_of];
  rewrite ?app_nil_r; reflexivity.

Section Main.

Variable environ : gmap string string.
Variable argv : list string.
Variable drv : driver.

Let uri : string := MONGODB_URI environ.

Lemma confirm_reset_answer (s : state) (response : string)
    (rest : list string) :
  stdin s = response :: rest ->
  confirm_reset environ s
  = (Return (bool_decide (strip response = "YES")), set_stdin rest s,
     warning uri).
Proof.
  intros Hin. destruct s as [srv inp loc]. cbn [stdin] in Hin. subst inp.
  unfold confirm_reset, call.
  do 14 mstep. rewrite bind_run. unfold input at 1.
  reflexivity.
Qed.

Lemma confirm_reset_eof (s : state) :
  stdin s = [] ->
  confirm_reset environ s
  = (Raise (Exception "EOF when reading a line"), s, warning uri).
Proof.
  intros Hin. destruct s as [srv inp loc]. cbn [stdin] in Hin. subst inp.
  unfold confirm_reset, call.
  do 14 mstep. rewrite bind_run. unfold input at 1.
  reflexivity.
Qed.

Lemma run_follows_path (s : state) :
  ∃ code s' t,
    run environ argv drv s = (code, s', t)
    ∧ run_path argv drv uri s code s' t.
Proof.
  unfold run, main. do 3 mstep. rewrite bind_run.
  destruct (reset_database_path environ drv s) as (b & srv' & t & Hrun & Hpath).
  destruct (force argv) eqn:Hforce; cbn [negb].
  - rewrite ret_run. cbv beta iota. rewrite bind_run, Hrun.
    exists (status_of b), (mkState srv' (stdin s) (locals s)), (banner ++ t).
    split; [destruct b; exit_run | by apply run_forced].
  - rewrite bind_run.
    destruct (stdin s) as [|response rest] eqn:Hin.
    + rewrite (confirm_reset_eof s Hin).
      exists 1%Z, s, (banner ++ warning uri).
      split; [reflexivity | by apply run_no_answer].
    + rewrite (confirm_reset_answer s response rest Hin). cbv beta iota.
      destruct (decide (strip response = "YES")) as [Hyes | Hno].
      * rewrite (bool_decide_eq_true_2 _ Hyes). cbn [negb].
        rewrite ret_run. cbv beta iota. rewrite bind_run.
        destruct (reset_database_path environ drv (set_stdin rest s))
          as (b' & srv'' & t' & Hrun' & Hpath').
        rewrite Hrun'.
        exists (status_of b'), (mkState srv'' rest (locals s)),
          (banner ++ warning uri ++ t').
        split; [destruct b'; exit_run|].
        by apply (run_confirmed argv drv uri s response rest).
      * rewrite (bool_decide_eq_false_2 _ Hno). cbn [negb].
        mstep. 
        exists 0%Z, (set_stdin rest s),
          (banner ++ warning uri ++ [EvPrint cancelled_line]).
        split; [exit_run|].
        by apply (run_cancelled argv drv uri s response rest).
Qed.

Lemma run_path_of (s : state) (code : Z) (s' : state) (t : list event) :
  run environ argv drv s = (code, s', t) ->
  run_path argv drv uri s code s' t.
Proof.
  intros Hrun.
  destruct (run_follows_path s) as (code0 & s0 & t0 & Heq & Hpath).
  rewrite Hrun in Heq. by simplify_eq.
Qed.

End Main.

(** ** Reading the traces of the paths *)

Lemma banner_console : Forall (λ e, is_driver_call e = false) banner.
Proof. repeat constructor. Qed.

Lemma warning_console (uri : string) :
  Forall (λ e, is_driver_call e = false) (warning uri).
Proof. repeat constructor. Qed.

Lemma banner_no_input : Forall (λ e, is_input e = false) banner.
Proof. repeat constructor. Qed.

Lemma reset_path_connects drv uri srv b srv' t :
  reset_path drv uri srv b srv' t -> ∃ r, EvConnect uri r ∈ t.
Proof.
  destruct 1; unfold opening; cbn [app]; eexists;
    apply list_elem_of_further, list_elem_of_here.
Qed.

Lemma reset_path_no_input drv uri srv b srv' t :
  reset_path drv uri srv b srv' t -> Forall (λ e, is_input e = false) t.
Proof.
  assert (Hlisted : ∀ names,
    Forall (λ e, is_input e = false) (EvPrint ∘ listed_line <$> names)).
  { intros names. apply Forall_fmap, Forall_true. reflexivity. }
  assert (Hdropping : ∀ names,
    Forall (λ e, is_input e = false) (dropping names)).
  { intros names. unfold dropping.
    induction names as [|c names IH]; [constructor|].
    rewrite bind_cons. cbn [app]. by repeat constructor. }
  destruct 1; unfold opening, listing, complete, closing;
    rewrite ?Forall_app; repeat split;
    auto; repeat constructor.
Qed.

(** ** What [strip] removes *)

Lemma lead2_not_space1 (c : ascii) : is_lead2 c = true -> space1 c = false.
Proof. destruct c as [[] [] [] [] [] [] [] []]; vm_compute; congruence. Qed.

Lemma lead3_not_space1 (c : ascii) : is_lead3 c = true -> space1 c = false.
Proof. destruct c as [[] [] [] [] [] [] [] []]; vm_compute; congruence. Qed.

Lemma lead3_not_lead2 (c : ascii) : is_lead3 c = true -> is_lead2 c = false.
Proof. destruct c as [[] [] [] [] [] [] [] []]; vm_compute; congruence. Qed.

Lemma cont_not_space1 (c : ascii) : is_cont c = true -> space1 c = false.
Proof. destruct c as [[] [] [] [] [] [] [] []]; vm_compute; congruence. Qed.

Lemma cont_not_lead2 (c : ascii) : is_cont c = true -> is_lead2 c = false.
Proof. destruct c as [[] [] [] [] [] [] [] []]; vm_compute; congruence. Qed.

Lemma space2_bytes (c1 c2 : ascii) :
  space2 c1 c2 = true -> is_lead2 c1 = true ∧ is_cont c2 = true.
Proof.
  unfold space2. intros H.
  apply andb_prop in H as [H _]. by apply andb_prop in H.
Qed.

Lemma space3_bytes (c1 c2 c3 : ascii) :
  space3 c1 c2 c3 = true ->
  is_lead3 c1 = true ∧ is_cont c2 = true ∧ is_cont c3 = true.
Proof.
  unfold space3. intros H.
  apply andb_prop in H as [H _]. apply andb_prop in H as [H H3].
  apply andb_prop in H as [H1 H2]. done.
Qed.

Lemma whitespace_app (l1 l2 : list ascii) :
  whitespace l1 -> whitespace l2 -> whitespace (l1 ++ l2).
Proof.
  induction 1; intros H2; cbn [app];
    [exact H2 | apply ws_one | apply ws_two | apply ws_three]; auto.
Qed.

(** Whitespace in front is skipped. *)
Lemma lstrip_bytes_whitespace (l x : list ascii) :
  whitespace l -> lstrip_bytes (l ++ x) = lstrip_bytes x.
Proof.
  induction 1 as [|c l Hc _ IH|c1 c2 l Hc _ IH|c1 c2 c3 l Hc _ IH];
    cbn [app lstrip_bytes].
  - reflexivity.
  - by rewrite Hc.
  - destruct (space2_bytes _ _ Hc) as [H1 _].
    by rewrite (lead2_not_space1 _ H1), Hc.
  - destruct (space3_bytes _ _ _ Hc) as (H1 & _ & _).
    rewrite (lead3_not_space1 _ H1).
    replace (space2 c1 c2) with false
      by (unfold space2; by rewrite (lead3_not_lead2 _ H1)).
    by rewrite Hc.
Qed.

(** Whitespace at the end, read backwards, is skipped. *)
Lemma rstrip_rev_whitespace (w x : list ascii) :
  whitespace w -> rstrip_rev (rev w ++ x) = rstrip_rev x.
Proof.
  intros Hw. revert x.
  induction Hw as [|c l Hc _ IH|c1 c2 l Hc _ IH|c1 c2 c3 l Hc _ IH];
    intros x; cbn [rev]; rewrite <- ?(assoc_L (++)); cbn [app].
  - reflexivity.
  - rewrite IH. cbn [rstrip_rev]. by rewrite Hc.
  - rewrite IH. cbn [rstrip_rev].
    destruct (space2_bytes _ _ Hc) as [_ H2].
    by rewrite (cont_not_space1 _ H2), Hc.
  - rewrite IH. cbn [rstrip_rev].
    destruct (space3_bytes _ _ _ Hc) as (_ & H2 & H3).
    rewrite (cont_not_space1 _ H3).
    replace (space2 c2 c3) with false
      by (unfold space2; by rewrite (cont_not_lead2 _ H2)).
    by rewrite Hc.
Qed.

(** What [lstrip] skipped was whitespace. *)
Lemma lstrip_bytes_split (s : list ascii) :
  ∃ l, whitespace l ∧ s = l ++ lstrip_bytes s.
Proof.
  assert (H : ∀ n (s : list ascii), (length s ≤ n)%nat ->
                ∃ l, whitespace l ∧ s = l ++ lstrip_bytes s);
    [|by apply (H (length s))].
  clear s. induction n as [|n IH]; intros s Hlen.
  { destruct s; [|cbn in Hlen; lia]. exists []. split; [constructor | done]. }
  destruct s as [|c1 r1]; [exists []; split; [constructor | done]|].
  cbn [lstrip_bytes]. cbn [length] in Hlen.
  destruct (space1 c1) eqn:H1.
  { destruct (IH r1) as (l & Hl & Heq); [lia|].
    exists (c1 :: l). split; [by apply ws_one|]. cbn [app]. by f_equal. }
  destruct r1 as [|c2 r2]; [exists []; split; [constructor | done]|].
  cbn [length] in Hlen. destruct (space2 c1 c2) eqn:H2.
  { destruct (IH r2) as (l & Hl & Heq); [lia|].
    exists (c1 :: c2 :: l). split; [by apply ws_two|].
    cbn [app]. by do 2 f_equal. }
  destruct r2 as [|c3 r3]; [exists []; split; [constructor | done]|].
  cbn [length] in Hlen. destruct (space3 c1 c2 c3) eqn:H3.
  { destruct (IH r3) as (l & Hl & Heq); [lia|].
    exists (c1 :: c2 :: c3 :: l). split; [by apply ws_three|].
    cbn [app]. by do 3 f_equal. }
  exists []. split; [constructor | done].
Qed.

(** What [rstrip] skipped, read forwards, was whitespace. *)
Lemma rstrip_rev_split (s : list ascii) :
  ∃ w, whitespace (rev w) ∧ s = w ++ rstrip_rev s.
Proof.
  assert (H : ∀ n (s : list ascii), (length s ≤ n)%nat ->
                ∃ w, whitespace (rev w) ∧ s = w ++ rstrip_rev s);
    [|by apply (H (length s))].
  clear s. induction n as [|n IH]; intros s Hlen.
  { destruct s; [|cbn in Hlen; lia]. exists []. split; [constructor | done]. }
  destruct s as [|c1 r1]; [exists []; split; [constructor | done]|].
  cbn [rstrip_rev]. cbn [length] in Hlen.
  destruct (space1 c1) eqn:H1.
  { destruct (IH r1) as (w & Hw & Heq); [lia|].
    exists (c1 :: w). split; [|cbn [app]; by f_equal].
    cbn [rev]. apply whitespace_app; [exact Hw|].
    apply ws_one; [exact H1 | constructor]. }
  destruct r1 as [|c2 r2]; [exists []; split; [constructor | done]|].
  cbn [length] in Hlen. destruct (space2 c2 c1) eqn:H2.
  { destruct (IH r2) as (w & Hw & Heq); [lia|].
    exists (c1 :: c2 :: w). split; [|cbn [app]; by do 2 f_equal].
    cbn [rev]. rewrite <- (assoc_L (++)).
    apply whitespace_app; [exact Hw|].
    apply ws_two; [exact H2 | constructor]. }
  destruct r2 as [|c3 r3]; [exists []; split; [constructor | done]|].
  cbn [length] in Hlen. destruct (space3 c3 c2 c1) eqn:H3.
  { destruct (IH r3) as (w & Hw & Heq); [lia|].
    exists (c1 :: c2 :: c3 :: w). split; [|cbn [app]; by do 3 f_equal].
    cbn [rev]. rewrite <- !(assoc_L (++)).
    apply whitespace_app; [exact Hw|].
    apply ws_three; [exact H3 | constructor]. }
  exists []. split; [constructor | done].
Qed.

(** The answers that [confirm_reset] accepts: the three bytes of [YES]
    between two runs of whitespace, and nothing else. *)
Lemma strip_YES_iff (response : string) :
  strip response = "YES"
  ↔ ∃ l r, whitespace l ∧ whitespace r
           ∧ list_ascii_of_string response
             = l ++ list_ascii_of_string "YES" ++ r.
Proof.
  unfold strip, rstrip_bytes. split.
  - intros H. apply (f_equal list_ascii_of_string) in H.
    rewrite list_ascii_of_string_of_list_ascii in H.
    apply (f_equal (@rev ascii)) in H. rewrite rev_involutive in H.
    destruct (lstrip_bytes_split (list_ascii_of_string response))
      as (l & Hl & Heq).
    destruct (rstrip_rev_split
                (rev (lstrip_bytes (list_ascii_of_string response))))
      as (w & Hw & Heq').
    rewrite H in Heq'. apply (f_equal (@rev ascii)) in Heq'.
    rewrite rev_involutive, rev_app_distr, rev_involutive in Heq'.
    exists l, (rev w). split; [exact Hl|]. split; [exact Hw|].
    by rewrite <- Heq'.
  - intros (l & r & Hl & Hr & ->).
    rewrite (lstrip_bytes_whitespace _ _ Hl).
    cbn [list_ascii_of_string app lstrip_bytes].
    replace (space1 "Y") with false by reflexivity.
    replace (space2 "Y" "E") with false by reflexivity.
    replace (space3 "Y" "E" "S") with false by reflexivity.
    change ("Y" :: "E" :: "S" :: r)%char
      with (rev ["S"; "E"; "Y"]%char ++ r).
    rewrite rev_app_distr, rev_involutive.
    rewrite (rstrip_rev_whitespace _ _ Hr).
    reflexivity.
Qed.

Example strip_padded : strip ("  YES " +:+ nl) = "YES".
Proof. reflexivity. Qed.

Example strip_lower_case : strip "yes" = "yes".
Proof. reflexivity. Qed.

Example strip_inner_space : strip "Y ES" = "Y ES".
Proof. reflexivity. Qed.

(** A no-break space, U+00A0, is whitespace for [strip]. *)
Example strip_no_break_space :
  strip (String "194" (String "160" "YES")) = "YES".
Proof. reflexivity. Qed.

(** ** The confirmation gate and the force flag *)

(** C1: without the force flag, the reset routine is entered (its connect
    call is made) exactly when the answer to the prompt, stripped of
    surrounding whitespace, is the string YES (lemma [strip_YES_iff] says
    which answers those are); after any other answer the process exits with
    status 0, the server is as it was, and the driver was never called. *)
Theorem C1_confirmation_gate environ argv drv s response rest code s' t :
  force argv = false ->
  stdin s = response :: rest ->
  run environ argv drv s = (code, s', t) ->
  ((∃ r, EvConnect (MONGODB_URI environ) r ∈ t) ↔ strip response = "YES")
  ∧ (strip response ≠ "YES" ->
     code = 0%Z ∧ server s' = server s
     ∧ Forall (λ e, is_driver_call e = false) t).
Proof.
  intros Hforce Hin Hrun. apply run_path_of in Hrun.
  assert (Hcancelled : Forall (λ e, is_driver_call e = false)
            (banner ++ warning (MONGODB_URI environ)
             ++ [EvPrint cancelled_line])).
  { rewrite !Forall_app. repeat split;
      [apply banner_console | apply warning_console | repeat constructor]. }
  destruct Hrun as [b srv' t Hf Hpath | Hf Hnil
                   | r rest' Hf Hin' Hno | r rest' b srv' t Hf Hin' Hyes Hpath];
    try congruence.
  - assert (r = response) as -> by congruence.
    split; [|intros _; by destruct s].
    split; [|done]. intros [res Hres].
    rewrite Forall_forall in Hcancelled.
    by specialize (Hcancelled _ Hres).
  - assert (r = response) as -> by congruence.
    split; [|done]. split; [done|]. intros _.
    destruct (reset_path_connects _ _ _ _ _ _ Hpath) as [res Hres].
    exists res. rewrite !elem_of_app. auto.
Qed.

(** C5: with [--force] or [-f] among the arguments, the run is the banner
    followed by the reset routine, started in the state the process began
    in; nothing is read from standard input and no prompt is shown. *)
Theorem C5_force_skips_prompt environ argv drv s :
  "--force" ∈ argv ∨ "-f" ∈ argv ->
  ∃ b s1 t1,
    reset_database environ drv s = (Return b, s1, t1)
    ∧ run environ argv drv s = (status_of b, s1, banner ++ t1)
    ∧ Forall (λ e, is_input e = false) (banner ++ t1)
    ∧ (EvInput prompt_line ∉ banner ++ t1)
    ∧ stdin s1 = stdin s.
Proof.
  intros Hflag.
  assert (Hforce : force argv = true).
  { unfold force. destruct Hflag as [H | H].
    - by rewrite (bool_decide_eq_true_2 _ H).
    - rewrite (bool_decide_eq_true_2 _ H). apply orb_true_r. }
  destruct (reset_database_path environ drv s) as (b & srv' & t1 & Hreset & Hpath).
  exists b, (mkState srv' (stdin s) (locals s)), t1.
  assert (Hno : Forall (λ e, is_input e = false) (banner ++ t1)).
  { apply Forall_app. split; [apply banner_no_input|].
    eapply reset_path_no_input, Hpath. }
  split; [exact Hreset|]. split; [|split; [exact Hno|split; [|reflexivity]]].
  - unfold run, main. do 3 mstep. rewrite bind_run, Hforce. cbn [negb].
    rewrite ret_run. cbv beta iota. rewrite bind_run, Hreset.
    destruct b; exit_run.
  - intros Hin. rewrite Forall_forall in Hno. by specialize (Hno _ Hin).
Qed.

(** C10: the force behaviour, which is to go from the banner straight to
    [reset_database] without showing the warning or asking anything, is what
    a run does exactly when [--force] or [-f] is an element of [sys.argv];
    without them the run shows the warning and asks at the prompt.  The
    arguments matter in no other way, so that any other argument can be
    removed without changing the run; and every run ends with status 0
    or 1. *)
Theorem C10_only_force_flags_matter argv :
  (force argv = true ↔ "--force" ∈ argv ∨ "-f" ∈ argv)
  ∧ (∀ environ drv s argv',
       force argv' = force argv ->
       run environ argv' drv s = run environ argv drv s)
  ∧ (∀ environ drv s pre a post,
       argv = pre ++ a :: post -> a ≠ "--force" -> a ≠ "-f" ->
       run environ (pre ++ post) drv s = run environ argv drv s)
  ∧ (∀ environ drv s code s' t,
       run environ argv drv s = (code, s', t) -> code = 0%Z ∨ code = 1%Z)
  ∧ (∀ environ drv s,
       ∃ code s' t,
         run environ argv drv s = (code, s', t)
         ∧ (Forall (λ e, is_input e = false) t
            ↔ "--force" ∈ argv ∨ "-f" ∈ argv)
         ∧ ("--force" ∈ argv ∨ "-f" ∈ argv ->
            ∃ b t1,
              reset_database environ drv s = (Return b, s', t1)
              ∧ code = status_of b
              ∧ t = banner ++ t1)
         ∧ (¬ ("--force" ∈ argv ∨ "-f" ∈ argv) ->
            EvInput prompt_line ∈ t
            ∧ ∃ t0, t = banner ++ warning (MONGODB_URI environ) ++ t0)).
Proof.
  assert (Hflag : ∀ l, force l = true ↔ "--force" ∈ l ∨ "-f" ∈ l).
  { intros l. unfold force.
    rewrite orb_true_iff, !bool_decide_eq_true. reflexivity. }
  assert (Hsame : ∀ environ drv s l l',
            force l' = force l -> run environ l' drv s = run environ l drv s).
  { intros environ drv s l l' Heq. unfold run, main. by rewrite Heq. }
  split; [apply Hflag|]. split; [intros; by apply Hsame|]. split; [|split].
  - intros environ drv s pre a post -> Ha1 Ha2. apply Hsame.
    destruct (force (pre ++ post)) eqn:H1, (force (pre ++ a :: post)) eqn:H2;
      try reflexivity.
    + apply Hflag in H1. apply not_true_iff_false in H2.
      exfalso. apply H2, Hflag.
      rewrite !elem_of_app, !elem_of_cons. rewrite !elem_of_app in H1. tauto.
    + apply Hflag in H2. apply not_true_iff_false in H1.
      exfalso. apply H1, Hflag.
      rewrite !elem_of_app, !elem_of_cons in H2. rewrite !elem_of_app.
      destruct H2 as [[?|[?|?]]|[?|[?|?]]]; try tauto; congruence.
  - intros environ drv s code s' t Hrun. apply run_path_of in Hrun.
    destruct Hrun as [[] ? ? _ _ | | | ? ? [] ? ? _ _ _ _]; auto.
  - intros environ drv s.
    assert (Hprompt : ∀ t0,
              EvInput prompt_line
              ∈ banner ++ warning (MONGODB_URI environ) ++ t0).
    { intros t0. apply elem_of_app. right. apply elem_of_app. left.
      unfold warning.
      repeat first [apply list_elem_of_here | apply list_elem_of_further]. }
    assert (Hasked : ∀ t0,
              ¬ Forall (λ e, is_input e = false)
                  (banner ++ warning (MONGODB_URI environ) ++ t0)).
    { intros t0 Hall. rewrite Forall_forall in Hall.
      by specialize (Hall _ (Hprompt t0)). }
    destruct (force argv) eqn:Hforce.
    + pose proof (proj1 (Hflag argv) Hforce) as Hin.
      destruct (reset_database_path environ drv s)
        as (b & srv' & t1 & Hreset & Hpath).
      exists (status_of b), (mkState srv' (stdin s) (locals s)),
        (banner ++ t1).
      split.
      { unfold run, main. do 3 mstep. rewrite bind_run, Hforce. cbn [negb].
        rewrite ret_run. cbv beta iota. rewrite bind_run, Hreset.
        destruct b; exit_run. }
      split; [split; [by intros _|]|].
      { intros _. apply Forall_app. split; [apply banner_no_input|].
        eapply reset_path_no_input, Hpath. }
      split; [intros _; by exists b, t1 | by intros Hno].
    + assert (Hno : ¬ ("--force" ∈ argv ∨ "-f" ∈ argv)).
      { intros Hin. apply Hflag in Hin. congruence. }
      destruct (run_follows_path environ argv drv s)
        as (code & s' & t & Hrun & Hpath).
      exists code, s', t. split; [exact Hrun|].
      assert (Hshape : ∃ t0,
                t = banner ++ warning (MONGODB_URI environ) ++ t0).
      { destruct Hpath as [b srv' t Hf Hpath | Hf Hnil
                          | r rest Hf Hin Hcancel
                          | r rest b srv' t Hf Hin Hyes Hpath];
          [congruence | exists []; by rewrite app_nil_r | by eexists..]. }
      destruct Hshape as [t0 ->].
      split; [split; [by intros ?%Hasked | by intros ?%Hno]|].
      split; [by intros ?%Hno|].
      intros _. split; [apply Hprompt | by exists t0].
Qed.

(** ** Observations on the fragments of a trace *)

Section Observe.

Context {X : Type} (f : event -> list X).
Hypothesis f_print : ∀ l, f (EvPrint l) = [].

Lemma obs_prints (g : string -> string) (names : list string) :
  (EvPrint ∘ g <$> names) ≫= f = [].
Proof.
  induction names as [|c names IH]; [reflexivity|].
  rewrite fmap_cons, bind_cons, IH. cbn. by rewrite f_print.
Qed.

Lemma obs_dropping (names : list string) :
  dropping names ≫= f = names ≫= λ c, f (EvDrop c (Ok tt)).
Proof.
  unfold dropping.
  induction names as [|c names IH]; [reflexivity|].
  rewrite !bind_cons, bind_app, IH, !bind_cons, f_print.
  cbn. by rewrite app_nil_r.
Qed.

End Observe.

Lemma bind_singletons {X : Type} (l : list X) : l ≫= (λ x, [x]) = l.
Proof.
  induction l as [|x l IH]; [reflexivity|]. by rewrite bind_cons, IH.
Qed.

Lemma bind_nothing {X Y : Type} (l : list X) : l ≫= (λ _, @nil Y) = [].
Proof.
  induction l as [|x l IH]; [reflexivity|]. by rewrite bind_cons, IH.
Qed.

Lemma prints_fmap (g : string -> string) (names : list string) :
  prints (EvPrint ∘ g <$> names) = g <$> names.
Proof.
  unfold prints. induction names as [|c names IH]; [reflexivity|].
  rewrite !fmap_cons, bind_cons, IH. reflexivity.
Qed.

Lemma prints_dropping (names : list string) :
  prints (dropping names) = dropped_line <$> names.
Proof.
  unfold prints, dropping. induction names as [|c names IH]; [reflexivity|].
  rewrite fmap_cons, !bind_cons, bind_app, IH, !bind_cons. reflexivity.
Qed.

Lemma prints_app (t1 t2 : list event) :
  prints (t1 ++ t2) = prints t1 ++ prints t2.
Proof. apply bind_app. Qed.

Lemma prints_cons_print (l : string) (t : list event) :
  prints (EvPrint l :: t) = l :: prints t.
Proof. reflexivity. Qed.

Lemma filter_prefix_fmap (p : string) (g : string -> string) (b : bool)
    (names : list string) :
  (∀ c, String.prefix p (g c) = b) ->
  List.filter (String.prefix p) (g <$> names)
  = if b then g <$> names else [].
Proof.
  intros Hp. induction names as [|c names IH]; [by destruct b|].
  rewrite fmap_cons. cbn [List.filter]. rewrite Hp, IH. by destruct b.
Qed.

(** Computes an observation of driver calls on a trace given by its
    fragments. *)
Ltac observe :=
  unfold drops, dropped, drop_errors, raised, connects, pings, listed, closes;
  unfold opening, listing, complete, closing, banner, warning;
  repeat first
    [ rewrite (obs_prints _ (λ _, eq_refl))
    | rewrite (obs_dropping _ (λ _, eq_refl))
    | rewrite bind_singletons
    | rewrite bind_nothing
    | rewrite bind_app
    | rewrite bind_cons
    | rewrite app_nil_r
    | progress cbn [app mbind list_bind length] ].

Ltac observe_in H :=
  unfold drops, dropped, drop_errors, raised, connects, pings, listed, closes in H;
  unfold opening, listing, complete, closing, banner, warning in H;
  repeat first
    [ rewrite (obs_prints _ (λ _, eq_refl)) in H
    | rewrite (obs_dropping _ (λ _, eq_refl)) in H
    | rewrite bind_singletons in H
    | rewrite bind_nothing in H
    | rewrite bind_app in H
    | rewrite bind_cons in H
    | rewrite app_nil_r in H
    | progress cbn [app mbind list_bind length] in H ].

Lemma filter_cons_no (p x : string) (l : list string) :
  String.prefix p x = false ->
  List.filter (String.prefix p) (x :: l) = List.filter (String.prefix p) l.
Proof. intros H. cbn [List.filter]. by rewrite H. Qed.

Lemma filter_cons_yes (p x : string) (l : list string) :
  String.prefix p x = true ->
  List.filter (String.prefix p) (x :: l)
  = x :: List.filter (String.prefix p) l.
Proof. intros H. cbn [List.filter]. by rewrite H. Qed.

Lemma filter_nil_prefix (p : string) :
  List.filter (String.prefix p) [] = [].
Proof. reflexivity. Qed.

Lemma error_line_prefix (msg : string) :
  String.prefix error_prefix (error_line msg) = true.
Proof. destruct msg; reflexivity. Qed.

Lemma dropped_line_prefix (coll : string) :
  String.prefix dropped_prefix (dropped_line coll) = true.
Proof. destruct coll; reflexivity. Qed.

(** Computes the lines of a trace that start with a given prefix. *)
Ltac observe_lines :=
  unfold error_lines, dropped_lines, closed_lines;
  unfold opening, listing, complete, closing, banner, warning;
  repeat first
    [ rewrite prints_dropping
    | rewrite prints_fmap
    | rewrite prints_app
    | rewrite prints_cons_print
    | progress cbn [app prints mbind list_bind] ];
  repeat first
    [ rewrite List.filter_app
    | rewrite filter_nil_prefix
    | rewrite (filter_prefix_fmap _ listed_line false) by reflexivity
    | rewrite (filter_prefix_fmap dropped_prefix dropped_line true)
        by apply dropped_line_prefix
    | rewrite (filter_prefix_fmap _ dropped_line false) by reflexivity
    | rewrite filter_cons_yes by apply error_line_prefix
    | rewrite filter_cons_no by (vm_compute; reflexivity)
    | rewrite filter_cons_yes by (vm_compute; reflexivity) ];
  repeat first [ rewrite app_nil_r | progress cbn [app] ].

(** ** Console events are invisible to the observations of driver calls *)

Lemma obs_console {X : Type} (f : event -> list X) (console tr : list event) :
  (∀ e, is_driver_call e = false -> f e = []) ->
  Forall (λ e, is_driver_call e = false) console ->
  (console ++ tr) ≫= f = tr ≫= f.
Proof.
  intros Hf Hconsole. rewrite bind_app.
  induction Hconsole as [|e console He _ IH]; [reflexivity|].
  rewrite bind_cons, (Hf e He). exact IH.
Qed.

Ltac console_obs := apply obs_console; [by intros [] | assumption].

Lemma drops_console (console tr : list event) :
  Forall (λ e, is_driver_call e = false) console ->
  drops (console ++ tr) = drops tr.
Proof. intros. console_obs. Qed.

Lemma listed_console (console tr : list event) :
  Forall (λ e, is_driver_call e = false) console ->
  listed (console ++ tr) = listed tr.
Proof. intros. console_obs. Qed.

Lemma pings_console (console tr : list event) :
  Forall (λ e, is_driver_call e = false) console ->
  pings (console ++ tr) = pings tr.
Proof. intros. console_obs. Qed.

Lemma raised_console (console tr : list event) :
  Forall (λ e, is_driver_call e = false) console ->
  raised (console ++ tr) = raised tr.
Proof.
  intros. apply obs_console; [|assumption].
  by intros [| | ? [] | ? [] | [] | [] | ? [] |].
Qed.

Lemma closes_console (console tr : list event) :
  Forall (λ e, is_driver_call e = false) console ->
  closes (console ++ tr) = closes tr.
Proof. intros. unfold closes. f_equal. console_obs. Qed.

Lemma connects_console (console tr : list event) :
  Forall (λ e, is_driver_call e = false) console ->
  connects (console ++ tr) = connects tr.
Proof. intros. console_obs. Qed.

(** Membership of an event, read off an observation. *)
Lemma elem_of_listed (r : result (list string)) (t : list event) :
  EvList r ∈ t ↔ r ∈ listed t.
Proof.
  unfold listed. rewrite list_elem_of_bind. split.
  - intros Hin. exists (EvList r). split; [apply list_elem_of_here | exact Hin].
  - intros ([] & Hr & Hin); try by apply elem_of_nil in Hr.
    apply list_elem_of_singleton in Hr. by subst.
Qed.

Lemma elem_of_pings (r : result unit) (t : list event) :
  EvPing r ∈ t ↔ r ∈ pings t.
Proof.
  unfold pings. rewrite list_elem_of_bind. split.
  - intros Hin. exists (EvPing r). split; [apply list_elem_of_here | exact Hin].
  - intros ([] & Hr & Hin); try by apply elem_of_nil in Hr.
    apply list_elem_of_singleton in Hr. by subst.
Qed.

Lemma elem_of_connects (u : string) (r : result unit) (t : list event) :
  EvConnect u r ∈ t ↔ (u, r) ∈ connects t.
Proof.
  unfold connects. rewrite list_elem_of_bind. split.
  - intros Hin. exists (EvConnect u r).
    split; [apply list_elem_of_here | exact Hin].
  - intros ([] & Hr & Hin); try by apply elem_of_nil in Hr.
    apply list_elem_of_singleton in Hr. by simplify_eq.
Qed.

(** Finds an event in a trace given by its fragments. *)
Ltac find_event :=
  first [ apply list_elem_of_here
        | apply list_elem_of_further; find_event
        | apply elem_of_app; left; find_event
        | apply elem_of_app; right; find_event ].

Ltac find_in_path :=
  unfold opening, listing, complete, closing, banner, warning; find_event.

(** Splits membership in a short explicit list into its cases. *)
Ltac elem_cases H :=
  repeat first
    [ rewrite elem_of_nil in H; contradiction
    | rewrite list_elem_of_singleton in H
    | rewrite elem_of_cons in H; destruct H as [H | H] ].

(** A run is console events followed by at most one call of
    [reset_database]. *)
Lemma run_path_split argv drv uri s code s' t :
  run_path argv drv uri s code s' t ->
  ∃ console tr,
    t = console ++ tr
    ∧ Forall (λ e, is_driver_call e = false) console
    ∧ error_lines console = [] ∧ dropped_lines console = []
    ∧ ((tr = [] ∧ server s' = server s
        ∧ (code = 0%Z ∨ code = 1%Z ∧ force argv = false ∧ stdin s = []))
       ∨ (∃ b, reset_path drv uri (server s) b (server s') tr
               ∧ code = status_of b)).
Proof.
  destruct 1 as [b srv' t Hf Hpath | Hf Hnil
                | r rest Hf Hin Hno | r rest b srv' t Hf Hin Hyes Hpath].
  - exists banner, t. split; [reflexivity|].
    split; [apply banner_console|].
    split; [by observe_lines|]. split; [by observe_lines|].
    right. by exists b.
  - exists (banner ++ warning uri), []. split; [by rewrite app_nil_r|].
    split; [apply Forall_app;
            split; [apply banner_console | apply warning_console]|].
    split; [by observe_lines|]. split; [by observe_lines|].
    left. split; [reflexivity|]. split; [reflexivity|]. by right.
  - exists (banner ++ warning uri ++ [EvPrint cancelled_line]), [].
    split; [by rewrite app_nil_r|].
    split; [rewrite !Forall_app; repeat split;
            [apply banner_console | apply warning_console
            | repeat constructor]|].
    split; [by observe_lines|]. split; [by observe_lines|].
    left. split; [reflexivity|]. split; [by destruct s | by left].
  - exists (banner ++ warning uri), t. split; [by rewrite (assoc_L (++))|].
    split; [apply Forall_app;
            split; [apply banner_console | apply warning_console]|].
    split; [by observe_lines|]. split; [by observe_lines|].
    right; by exists b.
Qed.

(** ** An empty database *)

Lemma reset_path_empty drv uri srv b srv' t :
  reset_path drv uri srv b srv' t ->
  Ok [] ∈ listed t ->
  b = true ∧ srv' = srv ∧ drops t = [] ∧ EvPrint empty_line ∈ t.
Proof.
  destruct 1 as [| | | | | names ? ? ? ? ? Hne ? | pre c post];
    intros Hl; observe_in Hl; elem_cases Hl; try discriminate.
  - split; [reflexivity|]. split; [reflexivity|].
    split; [observe; reflexivity | find_in_path].
  - by simplify_eq.
  - by destruct pre.
Qed.

(** C6: when the listing call answers with no collection, no drop is
    invoked, the line that says the database is already empty is printed,
    [reset_database] returns [True], the server is as it was, and the process
    exits with status 0. *)
Theorem C6_empty_database environ argv drv s :
  (∀ b s1 t1,
     reset_database environ drv s = (Return b, s1, t1) ->
     EvList (Ok []) ∈ t1 ->
     b = true ∧ drops t1 = [] ∧ EvPrint empty_line ∈ t1
     ∧ server s1 = server s)
  ∧ (∀ code s' t,
       run environ argv drv s = (code, s', t) ->
       EvList (Ok []) ∈ t ->
       code = 0%Z ∧ drops t = [] ∧ EvPrint empty_line ∈ t
       ∧ server s' = server s).
Proof.
  split.
  - intros b s1 t1 Hrun Hl.
    destruct (reset_database_path environ drv s) as (b0 & srv' & t0 & Heq & Hpath).
    rewrite Hrun in Heq. simplify_eq. apply elem_of_listed in Hl.
    destruct (reset_path_empty _ _ _ _ _ _ Hpath Hl) as (-> & -> & Hd & Hp).
    by repeat split.
  - intros code s' t Hrun Hl. apply run_path_of, run_path_split in Hrun.
    destruct Hrun as (console & tr & -> & Hconsole & _ & _ & Hcase).
    apply elem_of_listed in Hl. rewrite listed_console in Hl by assumption.
    rewrite drops_console by assumption.
    destruct Hcase as [(-> & _) | (b & Hpath & ->)];
      [by apply elem_of_nil in Hl|].
    destruct (reset_path_empty _ _ _ _ _ _ Hpath Hl) as (-> & Hsrv & Hd & Hp).
    repeat split; [exact Hd | | exact Hsrv].
    apply elem_of_app. by right.
Qed.

(** ** The drops *)

Lemma drop_errors_console (console tr : list event) :
  Forall (λ e, is_driver_call e = false) console ->
  drop_errors (console ++ tr) = drop_errors tr.
Proof. intros. console_obs. Qed.

Lemma dropped_console (console tr : list event) :
  Forall (λ e, is_driver_call e = false) console ->
  dropped (console ++ tr) = dropped tr.
Proof. intros. console_obs. Qed.

Lemma elem_of_drop_errors (c m : string) (t : list event) :
  EvDrop c (Err m) ∈ t ↔ (c, m) ∈ drop_errors t.
Proof.
  unfold drop_errors. rewrite list_elem_of_bind. split.
  - intros Hin. exists (EvDrop c (Err m)).
    split; [apply list_elem_of_here | exact Hin].
  - intros ([| | | | | |? []|] & Hr & Hin); try by apply elem_of_nil in Hr.
    apply list_elem_of_singleton in Hr. by simplify_eq.
Qed.

Lemma error_lines_app (t1 t2 : list event) :
  error_lines (t1 ++ t2) = error_lines t1 ++ error_lines t2.
Proof. unfold error_lines. by rewrite prints_app, List.filter_app. Qed.

Lemma dropped_lines_app (t1 t2 : list event) :
  dropped_lines (t1 ++ t2) = dropped_lines t1 ++ dropped_lines t2.
Proof. unfold dropped_lines. by rewrite prints_app, List.filter_app. Qed.

(** What is left of a database after some of its collections were
    dropped. *)
Lemma collections_of_drop_collection db c srv :
  collections_of (drop_collection db c srv) db
  = filter (λ x, x ≠ c) (collections_of srv db).
Proof.
  unfold collections_of, drop_collection. rewrite lookup_alter_eq.
  by destruct (srv !! db).
Qed.

Lemma collections_of_drop_all db cs srv :
  collections_of (drop_all db cs srv) db
  = filter (λ x, x ∉ cs) (collections_of srv db).
Proof.
  revert srv. induction cs as [|c cs IH]; intros srv; cbn [drop_all].
  - induction (collections_of srv db) as [|x l IHl]; [reflexivity|].
    rewrite filter_cons_True by apply not_elem_of_nil. by f_equal.
  - rewrite IH, collections_of_drop_collection, list_filter_filter.
    apply list_filter_iff. intros x. rewrite not_elem_of_cons. tauto.
Qed.

Lemma other_databases_drop_all db db' cs srv :
  db' ≠ db -> drop_all db cs srv !! db' = srv !! db'.
Proof.
  intros Hne. revert srv. induction cs as [|c cs IH]; intros srv;
    cbn [drop_all]; [reflexivity|].
  rewrite IH. unfold drop_collection. by rewrite lookup_alter_ne.
Qed.

(** The first drop that raises is at one position only. *)
Lemma first_error_unique drv (names pre post : list string) c0 m0 k c m :
  names = pre ++ c0 :: post ->
  Forall (λ x, drop_error drv x = None) pre ->
  drop_error drv c0 = Some m0 ->
  names !! k = Some c ->
  Forall (λ x, drop_error drv x = None) (take k names) ->
  drop_error drv c = Some m ->
  take k names = pre ∧ c = c0 ∧ m = m0.
Proof.
  intros -> Hpre Hc0 Hk Htake Hc.
  destruct (Nat.lt_trichotomy k (length pre)) as [Hlt | [Heq | Hgt]].
  - rewrite lookup_app_l in Hk by exact Hlt.
    apply list_elem_of_lookup_2 in Hk.
    rewrite Forall_forall in Hpre. specialize (Hpre _ Hk). congruence.
  - subst k. rewrite list_lookup_middle in Hk by reflexivity.
    rewrite take_app_length. simplify_eq. split; [reflexivity|].
    split; [reflexivity | congruence].
  - assert (Hin : c0 ∈ take k (pre ++ c0 :: post)).
    { apply elem_of_take. exists (length pre).
      split; [by apply list_lookup_middle | exact Hgt]. }
    rewrite Forall_forall in Htake. specialize (Htake _ Hin). congruence.
Qed.

Lemma reset_path_all_dropped drv uri srv b srv' t names :
  reset_path drv uri srv b srv' t ->
  Ok names ∈ listed t ->
  names ≠ [] ->
  drop_errors t = [] ->
  b = true
  ∧ srv' = drop_all (db_name uri) names srv
  ∧ t = (opening uri ++ listing names) ++ dropping names
        ++ (complete (db_name uri) ++ closing).
Proof.
  destruct 1 as [| | | | | names0 ? ? ? ? ? Hne ? | pre c post];
    intros Hl Hnames He; observe_in Hl; elem_cases Hl; try discriminate.
  - by simplify_eq.
  - simplify_eq. split; [reflexivity|]. split; [reflexivity|].
    by rewrite <- !(assoc_L (++)).
  - observe_in He. discriminate.
Qed.

(** C2, as the code has it: when the listing call answers with N > 0
    collections and no drop raises, the drops invoked are exactly the
    collections listed, in the order listed; each is followed at once by its
    own acknowledgment line, there are no other drops and no other
    acknowledgment lines, and the run ends with status 0 on a database from
    which the collections listed are gone. *)
Theorem C2_one_drop_per_collection environ argv drv s code s' t names :
  run environ argv drv s = (code, s', t) ->
  EvList (Ok names) ∈ t ->
  names ≠ [] ->
  (∀ c m, EvDrop c (Err m) ∉ t) ->
  drops t = names
  ∧ dropped t = names
  ∧ dropped_lines t = dropped_line <$> names
  ∧ length (drops t) = length names
  ∧ length (dropped_lines t) = length names
  ∧ (∃ t1 t2, t = t1 ++ dropping names ++ t2
              ∧ drops t1 = [] ∧ drops t2 = []
              ∧ dropped_lines t1 = [] ∧ dropped_lines t2 = [])
  ∧ code = 0%Z
  ∧ server s' = drop_all (db_name (MONGODB_URI environ)) names (server s).
Proof.
  intros Hrun Hl Hnames Hnone.
  apply run_path_of, run_path_split in Hrun.
  destruct Hrun as (console & tr & -> & Hconsole & Herr & Hlines & Hcase).
  apply elem_of_listed in Hl. rewrite listed_console in Hl by assumption.
  assert (He : drop_errors tr = []).
  { destruct (drop_errors tr) as [|[c m] l] eqn:Heq; [reflexivity|].
    exfalso. apply (Hnone c m), elem_of_drop_errors.
    rewrite drop_errors_console, Heq by assumption. apply list_elem_of_here. }
  destruct Hcase as [(-> & _) | (b & Hpath & ->)];
    [by apply elem_of_nil in Hl|].
  destruct (reset_path_all_dropped _ _ _ _ _ _ _ Hpath Hl Hnames He)
    as (-> & Hsrv & ->).
  assert (Hdrops : drops (console ++ (opening (MONGODB_URI environ)
            ++ listing names) ++ dropping names
            ++ complete (db_name (MONGODB_URI environ)) ++ closing) = names).
  { rewrite drops_console by assumption. by observe. }
  assert (Hacks : dropped_lines (console ++ (opening (MONGODB_URI environ)
            ++ listing names) ++ dropping names
            ++ complete (db_name (MONGODB_URI environ)) ++ closing)
          = dropped_line <$> names).
  { rewrite dropped_lines_app, Hlines. by observe_lines. }
  split; [exact Hdrops|].
  split; [rewrite dropped_console by assumption; by observe|].
  split; [exact Hacks|].
  split; [by rewrite Hdrops|].
  split; [by rewrite Hacks, length_fmap|].
  split; [|by split].
  exists (console ++ opening (MONGODB_URI environ) ++ listing names),
    (complete (db_name (MONGODB_URI environ)) ++ closing).
  split; [by rewrite <- !(assoc_L (++))|].
  split; [rewrite drops_console by assumption; by observe|].
  split; [by observe|].
  split; [rewrite dropped_lines_app, Hlines; by observe_lines|].
  by observe_lines.
Qed.

Lemma reset_path_drop_raises drv uri srv b srv' t names k c msg :
  reset_path drv uri srv b srv' t ->
  Ok names ∈ listed t ->
  names !! k = Some c ->
  Forall (λ x, drop_error drv x = None) (take k names) ->
  drop_error drv c = Some msg ->
  b = false
  ∧ names = collections_of srv (db_name uri)
  ∧ srv' = drop_all (db_name uri) (take k names) srv
  ∧ t = (opening uri ++ listing names) ++ dropping (take k names)
        ++ [EvDrop c (Err msg); EvPrint (error_line msg)] ++ closing.
Proof.
  destruct 1 as [| | | | | names0 ? ? ? ? Hnames0 Hne Hok
                | pre c0 post m0 ? ? ? ? Hnames0 Hpre Hc0];
    intros Hl Hk Htake Hc; observe_in Hl; elem_cases Hl; try discriminate.
  - by simplify_eq.
  - simplify_eq. apply list_elem_of_lookup_2 in Hk.
    rewrite Forall_forall in Hok. specialize (Hok _ Hk). congruence.
  - simplify_eq.
    destruct (first_error_unique drv _ pre post c0 m0 k c msg eq_refl
                Hpre Hc0 Hk Htake Hc) as (Heq & -> & ->).
    rewrite Heq. split; [reflexivity|]. split; [by symmetry|].
    split; [reflexivity|]. by rewrite <- !(assoc_L (++)).
Qed.

(** C8: when the drop at position k of the listing raises (the drops before
    it returned), the exception is printed by the handler of
    [reset_database] and is the only one; the drops invoked are those of
    positions 0 to k and no other; the collections before position k are
    gone from the database and every other collection is still there; the
    connection is closed and the process exits with status 1. *)
Theorem C8_drop_failure environ argv drv s code s' t names k c msg :
  run environ argv drv s = (code, s', t) ->
  EvList (Ok names) ∈ t ->
  names !! k = Some c ->
  Forall (λ x, drop_error drv x = None) (take k names) ->
  drop_error drv c = Some msg ->
  code = 1%Z
  ∧ raised t = [msg]
  ∧ error_lines t = [error_line msg]
  ∧ drops t = take (S k) names
  ∧ dropped t = take k names
  ∧ server s'
    = drop_all (db_name (MONGODB_URI environ)) (take k names) (server s)
  ∧ collections_of (server s') (db_name (MONGODB_URI environ))
    = filter (λ x, x ∉ take k names) names
  ∧ closes t = 1.
Proof.
  intros Hrun Hl Hk Htake Hc.
  apply run_path_of, run_path_split in Hrun.
  destruct Hrun as (console & tr & -> & Hconsole & Herr & Hlines & Hcase).
  apply elem_of_listed in Hl. rewrite listed_console in Hl by assumption.
  destruct Hcase as [(-> & _) | (b & Hpath & ->)];
    [by apply elem_of_nil in Hl|].
  destruct (reset_path_drop_raises _ _ _ _ _ _ _ _ _ _ Hpath Hl Hk Htake Hc)
    as (-> & Hnames & Hsrv & ->).
  split; [reflexivity|].
  split; [rewrite raised_console by assumption; by observe|].
  split; [rewrite error_lines_app, Herr; by observe_lines|].
  split; [rewrite drops_console by assumption; observe;
          by rewrite (take_S_r _ _ _ Hk)|].
  split; [rewrite dropped_console by assumption; by observe|].
  split; [exact Hsrv|].
  split; [by rewrite Hsrv, collections_of_drop_all, <- Hnames|].
  rewrite closes_console by assumption. by observe.
Qed.

(** ** Exceptions *)

Lemma reset_path_errors drv uri srv b srv' t :
  reset_path drv uri srv b srv' t ->
  error_lines t = error_line <$> raised t
  ∧ (length (raised t) ≤ 1)%nat
  ∧ (b = false ↔ raised t ≠ []).
Proof.
  destruct 1; (split; [observe; observe_lines; reflexivity|]); observe;
    cbn [length]; (split; [lia|]); split; congruence.
Qed.

(** C3: [reset_database] never lets an exception of the driver escape: it
    returns a boolean, [False] exactly when a driver call raised; at most one
    driver call raises in a run, and the lines that start with the error
    prefix are exactly the messages of the exceptions raised, one line each.
    The process exits with status 1 after such an exception, with status 0
    after a run without one (provided the prompt, if shown, was answered),
    and with status 0 when the answer to the prompt is not YES. *)
Theorem C3_errors_caught_once environ argv drv s :
  (∃ b s1 t1,
     reset_database environ drv s = (Return b, s1, t1)
     ∧ error_lines t1 = error_line <$> raised t1
     ∧ (length (raised t1) ≤ 1)%nat
     ∧ (b = false ↔ raised t1 ≠ []))
  ∧ (∃ code s' t,
       run environ argv drv s = (code, s', t)
       ∧ error_lines t = error_line <$> raised t
       ∧ (length (raised t) ≤ 1)%nat
       ∧ (raised t ≠ [] -> code = 1%Z)
       ∧ (raised t = [] -> force argv = true ∨ stdin s ≠ [] -> code = 0%Z)
       ∧ (∀ response rest,
            force argv = false -> stdin s = response :: rest ->
            strip response ≠ "YES" -> code = 0%Z ∧ raised t = [])).
Proof.
  split.
  - destruct (reset_database_path environ drv s)
      as (b & srv' & t & Hrun & Hpath).
    exists b, (mkState srv' (stdin s) (locals s)), t.
    split; [exact Hrun | by eapply reset_path_errors].
  - destruct (run_follows_path environ argv drv s)
      as (code & s' & t & Hrun & Hpath).
    exists code, s', t. split; [exact Hrun|].
    assert (Hcancel : ∀ response rest,
              force argv = false -> stdin s = response :: rest ->
              strip response ≠ "YES" ->
              run_path argv drv (MONGODB_URI environ) s code s' t ->
              code = 0%Z ∧ raised t = []).
    { intros response rest Hf Hin Hno Hp.
      destruct Hp as [| | r rest' _ Hin' _ | r rest' ? ? ? _ Hin' Hyes _];
        try congruence.
      split; [reflexivity|]. by observe. }
    pose proof (run_path_split _ _ _ _ _ _ _ Hpath)
      as (console & tr & -> & Hconsole & Herr & _ & Hcase).
    rewrite error_lines_app, Herr, raised_console by assumption.
    cbn [app].
    destruct Hcase as [(-> & Hsrv & Hcode) | (b & Hreset & ->)].
    + split; [reflexivity|]. split; [cbn; lia|]. split; [done|].
      split; [|intros; rewrite <- (raised_console console []) by assumption;
               by eapply Hcancel].
      intros _ Hanswered.
      destruct Hcode as [-> | (_ & Hf & Hnil)]; [reflexivity|].
      destruct Hanswered; congruence.
    + destruct (reset_path_errors _ _ _ _ _ _ Hreset) as (Hlines & Hlen & Hb).
      split; [exact Hlines|]. split; [exact Hlen|].
      split; [intros Hr; apply Hb in Hr; by subst|].
      split.
      * intros Hr _. destruct b; [reflexivity|].
        destruct Hb as [Hb _]. by destruct (Hb eq_refl).
      * intros response rest Hf Hin Hno.
        rewrite <- (raised_console console tr) by assumption.
        by eapply Hcancel.
Qed.

(** ** Closing the connection *)

Lemma closed_lines_app (t1 t2 : list event) :
  closed_lines (t1 ++ t2) = closed_lines t1 ++ closed_lines t2.
Proof. unfold closed_lines. by rewrite prints_app, List.filter_app. Qed.

Section EndsWith.

Context {X : Type} (c : list X).

Lemma ends_here : ∃ t0, c = t0 ++ c.
Proof. by exists []. Qed.

Lemma ends_app (t1 t2 : list X) :
  (∃ t0, t2 = t0 ++ c) -> ∃ t0, t1 ++ t2 = t0 ++ c.
Proof. intros [t0 ->]. exists (t1 ++ t0). by rewrite (assoc_L (++)). Qed.

Lemma ends_cons (x : X) (t2 : list X) :
  (∃ t0, t2 = t0 ++ c) -> ∃ t0, x :: t2 = t0 ++ c.
Proof. intros [t0 ->]. by exists (x :: t0). Qed.

End EndsWith.

Ltac ends_with :=
  repeat first [ apply ends_here | apply ends_app | apply ends_cons ].

Lemma reset_path_close drv uri srv b srv' t :
  reset_path drv uri srv b srv' t ->
  ((uri, Ok tt) ∈ connects t ->
     closes t = 1 ∧ closed_lines t = [closed_line]
     ∧ ∃ t0, t = t0 ++ closing)
  ∧ ((uri, Ok tt) ∉ connects t ->
       closes t = 0 ∧ closed_lines t = []
       ∧ connect_error drv uri ≠ None).
Proof.
  destruct 1 as [msg Hc | | | | | |]; split; intros Hconn.
  1: { observe_in Hconn. elem_cases Hconn. discriminate. }
  1: { split; [by observe|]. split; [by observe_lines | congruence]. }
  all: try (exfalso; apply Hconn; observe; apply list_elem_of_here).
  all: split; [by observe|]; split; [by observe_lines|].
  all: unfold opening; ends_with.
Qed.

(** C4, as the code has it: in a run in which the connect call returned,
    the connection is closed exactly once and the line that confirms it is
    printed exactly once, as the last two steps of the run, whatever the
    later driver calls did; in a run in which the connect call raised, or
    was never made, nothing is closed and that line is not printed. *)
Theorem C4_close_when_connected environ argv drv s code s' t :
  run environ argv drv s = (code, s', t) ->
  (EvConnect (MONGODB_URI environ) (Ok tt) ∈ t ->
     closes t = 1 ∧ closed_lines t = [closed_line]
     ∧ ∃ t0, t = t0 ++ [EvClose; EvPrint closed_line])
  ∧ (EvConnect (MONGODB_URI environ) (Ok tt) ∉ t ->
       closes t = 0 ∧ closed_lines t = []).
Proof.
  intros Hrun. apply run_path_of in Hrun.
  rewrite elem_of_connects.
  assert (Hbw : Forall (λ e, is_driver_call e = false)
                  (banner ++ warning (MONGODB_URI environ))).
  { apply Forall_app. split; [apply banner_console | apply warning_console]. }
  destruct Hrun as [b srv' tr Hf Hpath | Hf Hnil
                   | r rest Hf Hin Hno | r rest b srv' tr Hf Hin Hyes Hpath].
  - rewrite connects_console, closes_console by apply banner_console.
    rewrite closed_lines_app.
    replace (closed_lines banner) with (@nil string) by (by observe_lines).
    destruct (reset_path_close _ _ _ _ _ _ Hpath) as [Hyes Hno].
    cbn [app]. split; [|intros Hc; by destruct (Hno Hc) as (? & ? & _)].
    intros Hc.
    destruct (Hyes Hc) as (H1 & H2 & t0 & ->).
    split; [exact H1|]. split; [exact H2|].
    exists (banner ++ t0). by rewrite <- (assoc_L (++)).
  - split; [intros Hc; observe_in Hc; by apply elem_of_nil in Hc|].
    intros _. split; [by observe | by observe_lines].
  - split; [intros Hc; observe_in Hc; by apply elem_of_nil in Hc|].
    intros _. split; [by observe | by observe_lines].
  - rewrite !(assoc_L (++)).
    rewrite connects_console, closes_console by exact Hbw.
    rewrite closed_lines_app.
    replace (closed_lines (banner ++ warning (MONGODB_URI environ)))
      with (@nil string) by (by observe_lines).
    destruct (reset_path_close _ _ _ _ _ _ Hpath) as [Hy Hn].
    cbn [app]. split; [|intros Hc; by destruct (Hn Hc) as (? & ? & _)].
    intros Hc.
    destruct (Hy Hc) as (H1 & H2 & t0 & ->).
    split; [exact H1|]. split; [exact H2|].
    exists ((banner ++ warning (MONGODB_URI environ)) ++ t0).
    by rewrite <- (assoc_L (++)).
Qed.

(** ** The liveness check *)

Lemma reset_path_ping drv uri srv b srv' t r :
  reset_path drv uri srv b srv' t ->
  r ∈ pings t ->
  ∃ t2, t = opening uri ++ EvPing r :: t2
        ∧ (∀ msg, r = Err msg ->
             b = false ∧ srv' = srv
             ∧ t2 = EvPrint (error_line msg) :: closing).
Proof.
  destruct 1; intros Hr; observe_in Hr; elem_cases Hr; subst r.
  all: eexists; split;
    [unfold listing; norm_trace; reflexivity | intros msg' Heq].
  all: try discriminate.
  by simplify_eq.
Qed.

Lemma reset_path_needs_ping drv uri srv b srv' t :
  reset_path drv uri srv b srv' t ->
  listed t ≠ [] ∨ drops t ≠ [] ->
  Ok tt ∈ pings t.
Proof.
  destruct 1; intros Hld; observe_in Hld; observe;
    try apply list_elem_of_here.
  all: by destruct Hld.
Qed.

Lemma opening_before_ping (uri : string) :
  EvConnect uri (Ok tt) ∈ opening uri
  ∧ listed (opening uri) = [] ∧ drops (opening uri) = []
  ∧ pings (opening uri) = [].
Proof. split; [find_in_path | by observe]. Qed.

(** C7: the liveness check is made once the connect call has returned and
    before any listing or drop, and a listing or a drop is made only after
    it succeeded.  When it raises, no collection is listed or dropped, the
    server is as it was, the error line with its message is printed, the
    connection is closed, and the process exits with status 1. *)
Theorem C7_liveness_check environ argv drv s code s' t :
  run environ argv drv s = (code, s', t) ->
  (∀ r, EvPing r ∈ t ->
     ∃ t1 t2, t = t1 ++ EvPing r :: t2
              ∧ EvConnect (MONGODB_URI environ) (Ok tt) ∈ t1
              ∧ listed t1 = [] ∧ drops t1 = [] ∧ pings t1 = [])
  ∧ (listed t ≠ [] ∨ drops t ≠ [] -> EvPing (Ok tt) ∈ t)
  ∧ (∀ msg, EvPing (Err msg) ∈ t ->
       listed t = [] ∧ drops t = []
       ∧ server s' = server s
       ∧ error_lines t = [error_line msg]
       ∧ closes t = 1
       ∧ code = 1%Z
       ∧ ∃ t1, t = t1 ++ [EvPing (Err msg); EvPrint (error_line msg);
                          EvClose; EvPrint closed_line]).
Proof.
  intros Hrun. apply run_path_of, run_path_split in Hrun.
  destruct Hrun as (console & tr & -> & Hconsole & Herr & _ & Hcase).
  setoid_rewrite elem_of_pings.
  rewrite listed_console, drops_console, pings_console by assumption.
  destruct (opening_before_ping (MONGODB_URI environ))
    as (Hconn & Hl0 & Hd0 & Hp0).
  destruct Hcase as [(-> & Hsrv & _) | (b & Hpath & ->)].
  - split; [intros r Hr; by apply elem_of_nil in Hr|].
    split; [intros [H | H]; by destruct H|].
    intros msg Hr. by apply elem_of_nil in Hr.
  - split; [|split].
    + intros r Hr.
      destruct (reset_path_ping _ _ _ _ _ _ _ Hpath Hr) as (t2 & -> & _).
      exists (console ++ opening (MONGODB_URI environ)), t2.
      split; [by rewrite <- !(assoc_L (++))|].
      split; [apply elem_of_app; by right|].
      by rewrite listed_console, drops_console, pings_console.
    + intros Hld. by eapply reset_path_needs_ping.
    + intros msg Hr.
      destruct (reset_path_ping _ _ _ _ _ _ _ Hpath Hr) as (t2 & -> & Hmsg).
      destruct (Hmsg msg eq_refl) as (-> & -> & ->).
      split; [by observe|]. split; [by observe|].
      split; [reflexivity|].
      split; [rewrite error_lines_app, Herr; by observe_lines|].
      split; [rewrite closes_console by assumption; by observe|].
      split; [reflexivity|].
      exists (console ++ opening (MONGODB_URI environ)).
      by rewrite <- !(assoc_L (++)).
Qed.

(** ** The database name *)

Lemma split_not_nil (sep : ascii) (s : string) : split sep s ≠ [].
Proof.
  induction s as [|c r IH]; cbn [split]; [discriminate|].
  destruct (Ascii.eqb c sep); [discriminate|].
  by destruct (split sep r).
Qed.

(** The name is the first field, cut at ['?'], of the last field, cut at
    ['/'], of the URI: neither index of the source can fail. *)
Lemma db_name_fields (uri : string) :
  ∃ last_field name,
    last (split "/" uri) = Some last_field
    ∧ head (split "?" last_field) = Some name
    ∧ db_name uri = name.
Proof.
  unfold db_name.
  destruct (last (split "/" uri)) as [last_field|] eqn:Hlast.
  - cbn [default from_option id].
    destruct (head (split "?" last_field)) as [name|] eqn:Hhead.
    + by exists last_field, name.
    + apply head_None in Hhead. by apply split_not_nil in Hhead.
  - apply last_None in Hlast. by apply split_not_nil in Hlast.
Qed.

(** *** Where the name is the path segment *)

Lemma split_without_sep (sep : ascii) (s : string) :
  has_char sep s = false -> split sep s = [s].
Proof.
  induction s as [|c r IH]; cbn [has_char split]; [reflexivity|].
  intros H. apply orb_false_elim in H as [Hc Hr].
  by rewrite Hc, (IH Hr).
Qed.

(** [(p + sep + x).split(sep) == p.split(sep) + x.split(sep)] *)
Lemma split_app_sep (sep : ascii) (p x : string) :
  split sep (p +:+ String sep x) = split sep p ++ split sep x.
Proof.
  induction p as [|c r IH].
  - change (split sep (String sep x) = [""] ++ split sep x).
    cbn [split app]. by rewrite Ascii.eqb_refl.
  - change (split sep (String c (r +:+ String sep x))
            = split sep (String c r) ++ split sep x).
    cbn [split]. rewrite IH. destruct (Ascii.eqb c sep); [reflexivity|].
    pose proof (split_not_nil sep r). by destruct (split sep r).
Qed.

Lemma has_char_app (c : ascii) (s1 s2 : string) :
  has_char c (s1 +:+ s2) = has_char c s1 || has_char c s2.
Proof.
  induction s1 as [|x r IH]; [reflexivity|].
  change (has_char c (String x (r +:+ s2))
          = has_char c (String x r) || has_char c s2).
  cbn [has_char]. by rewrite IH, orb_assoc.
Qed.

(** For a URI that ends in [/name] or in [/name?query], with no ['/'] in
    the query string, the name taken is [name]. *)
Lemma db_name_of_plain_uri (pre name query : string) :
  has_char "/" name = false ->
  has_char "?" name = false ->
  has_char "/" query = false ->
  db_name (pre +:+ String "/" name) = name
  ∧ db_name (pre +:+ String "/" (name +:+ String "?" query)) = name.
Proof.
  intros Hslash Hquestion Hquery. unfold db_name. split.
  - rewrite split_app_sep, (split_without_sep "/" name Hslash).
    rewrite last_snoc. cbn [default from_option id].
    by rewrite (split_without_sep "?" name Hquestion).
  - rewrite split_app_sep.
    rewrite (split_without_sep "/" (name +:+ String "?" query)).
    + rewrite last_snoc. cbn [default from_option id].
      rewrite split_app_sep, (split_without_sep "?" name Hquestion).
      reflexivity.
    + rewrite has_char_app. cbn [has_char].
      by rewrite Hslash, Hquery.
Qed.

(** C9: on a URI such as [mongodb://localhost:27017/edu-resource?opt=1]
    the database name is the path segment, but
    not on every URI: with a ['/'] in the query string the name is taken from
    the query string, and without a path it is the host and port.  The reset
    routine then opens, lists and empties the database of that name and
    leaves the database of the path segment as it was. *)
Theorem C9_db_name_is_last_slash_field :
  db_name "mongodb://localhost:27017/edu-resource?opt=1" = "edu-resource"
  ∧ uri_path_segment "mongodb://localhost:27017/edu-resource?opt=1"
    = "edu-resource"
  ∧ db_name "mongodb://localhost:27017/edu-resource?tlsCAFile=/etc/ssl/ca"
    = "ca"
  ∧ uri_path_segment
      "mongodb://localhost:27017/edu-resource?tlsCAFile=/etc/ssl/ca"
    = "edu-resource"
  ∧ db_name "mongodb://localhost:27017" = "localhost:27017"
  ∧ uri_path_segment "mongodb://localhost:27017" = ""
  ∧ (let environ : gmap string string :=
       {[ "MONGODB_URI" :=
            "mongodb://localhost:27017/edu-resource?tlsCAFile=/etc/ssl/ca" ]} in
     let srv : gmap string (list string) :=
       {[ "edu-resource" := ["users"; "courses"]; "ca" := ["certs"] ]} in
     let r := run environ ["reset_db.py"; "--force"] sound_driver
                (state_of srv []) in
     EvDatabase "ca" (Ok tt) ∈ r.2
     ∧ drops r.2 = ["certs"]
     ∧ collections_of (server r.1.2) "edu-resource" = ["users"; "courses"]
     ∧ collections_of (server r.1.2) "ca" = []).
Proof.
  repeat split; try (vm_compute; reflexivity).
  vm_compute. find_event.
Qed.

(** * The theorems at concrete runs *)

Lemma run_result environ argv drv s :
  run environ argv drv s
  = ((run environ argv drv s).1.1, (run environ argv drv s).1.2,
     (run environ argv drv s).2).
Proof. by destruct (run environ argv drv s) as [[? ?] ?]. Qed.

Lemma no_drop_error (t : list event) :
  drop_errors t = [] -> ∀ c m, EvDrop c (Err m) ∉ t.
Proof.
  intros He c m Hin. apply elem_of_drop_errors in Hin.
  rewrite He in Hin. by apply elem_of_nil in Hin.
Qed.

(** The prompt answered with [yes], in lower case: the run is cancelled. *)
Lemma C1_confirmation_gate_witness :
  let r := run ∅ ["reset_db.py"] sound_driver
             (state_of two_collections ["yes"]) in
  strip "yes" ≠ "YES"
  ∧ r.1.1 = 0%Z ∧ server r.1.2 = two_collections
  ∧ Forall (λ e, is_driver_call e = false) r.2.
Proof.
  assert (Hno : strip "yes" ≠ "YES") by (vm_compute; discriminate).
  split; [exact Hno|].
  apply (C1_confirmation_gate ∅ ["reset_db.py"] sound_driver
           (state_of two_collections ["yes"]) "yes" []);
    [reflexivity | reflexivity | apply run_result | exact Hno].
Defined.

(** Two collections, no failure, [--force]. *)
Lemma C2_one_drop_per_collection_witness :
  let r := run ∅ ["reset_db.py"; "--force"] sound_driver
             (state_of two_collections []) in
  drops r.2 = ["users"; "courses"]
  ∧ dropped_lines r.2
    = [dropped_line "users"; dropped_line "courses"]
  ∧ r.1.1 = 0%Z.
Proof.
  pose proof (C2_one_drop_per_collection ∅ ["reset_db.py"; "--force"]
                sound_driver (state_of two_collections []) _ _ _
                ["users"; "courses"] (run_result _ _ _ _)) as H.
  destruct H as (Hd & _ & Hl & _ & _ & _ & Hc & _).
  - vm_compute. find_event.
  - discriminate.
  - apply no_drop_error. vm_compute. reflexivity.
  - repeat split; assumption.
Defined.

(** The first of two drops raises: one drop is invoked, none is
    acknowledged. *)
Lemma C2_counterexample :
  let r := run ∅ ["reset_db.py"; "--force"] users_locked
             (state_of two_collections []) in
  EvList (Ok ["users"; "courses"]) ∈ r.2
  ∧ drops r.2 = ["users"]
  ∧ dropped_lines r.2 = []
  ∧ length (drops r.2) = 1
  ∧ length (dropped_lines r.2) = 0.
Proof.
  split; [vm_compute; find_event|].
  repeat split; vm_compute; reflexivity.
Qed.

(** The liveness check fails: one exception, one error line, status 1. *)
Lemma C3_errors_caught_once_witness :
  ∃ code s' t,
    run ∅ ["reset_db.py"; "-f"] unreachable (state_of two_collections [])
    = (code, s', t)
    ∧ raised t = ["No servers found yet"]
    ∧ error_lines t = [error_line "No servers found yet"]
    ∧ code = 1%Z.
Proof.
  destruct (C3_errors_caught_once ∅ ["reset_db.py"; "-f"] unreachable
              (state_of two_collections []))
    as [_ (code & s' & t & Hrun & Hlines & _ & Hcode & _)].
  exists code, s', t. split; [exact Hrun|].
  assert (Hraised : raised t = ["No servers found yet"]).
  { replace t with (run ∅ ["reset_db.py"; "-f"] unreachable
                      (state_of two_collections [])).2
      by (by rewrite Hrun).
    vm_compute. reflexivity. }
  split; [exact Hraised|]. split.
  - rewrite Hlines, Hraised. reflexivity.
  - apply Hcode. rewrite Hraised. discriminate.
Defined.

(** The liveness check fails after a connect that returned: the connection
    is closed once. *)
Lemma C4_close_when_connected_witness :
  let r := run ∅ ["reset_db.py"; "-f"] unreachable
             (state_of two_collections []) in
  closes r.2 = 1 ∧ closed_lines r.2 = [closed_line].
Proof.
  destruct (C4_close_when_connected ∅ ["reset_db.py"; "-f"] unreachable
              (state_of two_collections []) _ _ _ (run_result _ _ _ _))
    as [Hyes _].
  destruct Hyes as (Hc & Hl & _); [vm_compute; find_event|].
  split; assumption.
Defined.

(** [MongoClient] rejects the URI: the name [client] is never bound and
    nothing is closed. *)
Lemma C4_counterexample :
  let r := run {[ "MONGODB_URI" := "localhost:27017" ]}
             ["reset_db.py"; "--force"] strict_driver
             (state_of two_collections []) in
  raised r.2 = ["Invalid URI scheme"]
  ∧ closes r.2 = 0
  ∧ closed_lines r.2 = []
  ∧ r.1.1 = 1%Z.
Proof. repeat split; vm_compute; reflexivity. Qed.

(** [-f] on the command line. *)
Lemma C5_force_skips_prompt_witness :
  ∃ b s1 t1,
    reset_database ∅ sound_driver (state_of two_collections ["no"])
    = (Return b, s1, t1)
    ∧ run ∅ ["reset_db.py"; "-f"] sound_driver
        (state_of two_collections ["no"])
      = (status_of b, s1, banner ++ t1)
    ∧ stdin s1 = ["no"].
Proof.
  destruct (C5_force_skips_prompt ∅ ["reset_db.py"; "-f"] sound_driver
              (state_of two_collections ["no"]))
    as (b & s1 & t1 & Hreset & Hrun & _ & _ & Hin).
  - right. apply list_elem_of_further, list_elem_of_here.
  - exists b, s1, t1. repeat split; assumption.
Defined.

(** A database without collections. *)
Lemma C6_empty_database_witness :
  let r := run {[ "MONGODB_URI" := "mongodb://localhost:27017/testdb" ]}
             ["reset_db.py"; "--force"] sound_driver
             (state_of two_collections []) in
  r.1.1 = 0%Z ∧ drops r.2 = [] ∧ EvPrint empty_line ∈ r.2
  ∧ server r.1.2 = two_collections.
Proof.
  destruct (C6_empty_database
              {[ "MONGODB_URI" := "mongodb://localhost:27017/testdb" ]}
              ["reset_db.py"; "--force"] sound_driver
              (state_of two_collections [])) as [_ H].
  apply (H _ _ _ (run_result _ _ _ _)).
  vm_compute. find_event.
Defined.

(** The server does not answer the liveness check. *)
Lemma C7_liveness_check_witness :
  let r := run ∅ ["reset_db.py"; "-f"] unreachable
             (state_of two_collections []) in
  listed r.2 = [] ∧ drops r.2 = []
  ∧ server r.1.2 = two_collections
  ∧ error_lines r.2 = [error_line "No servers found yet"]
  ∧ closes r.2 = 1
  ∧ r.1.1 = 1%Z.
Proof.
  destruct (C7_liveness_check ∅ ["reset_db.py"; "-f"] unreachable
              (state_of two_collections []) _ _ _ (run_result _ _ _ _))
    as (_ & _ & H).
  destruct (H "No servers found yet") as (H1 & H2 & H3 & H4 & H5 & H6 & _);
    [vm_compute; find_event|].
  repeat split; assumption.
Defined.

(** The second of two drops raises. *)
Lemma C8_drop_failure_witness :
  let r := run ∅ ["reset_db.py"; "-f"] courses_locked
             (state_of two_collections []) in
  r.1.1 = 1%Z
  ∧ drops r.2 = ["users"; "courses"]
  ∧ dropped r.2 = ["users"]
  ∧ collections_of (server r.1.2) "edu-resource" = ["courses"]
  ∧ closes r.2 = 1.
Proof.
  destruct (C8_drop_failure ∅ ["reset_db.py"; "-f"] courses_locked
              (state_of two_collections []) _ _ _
              ["users"; "courses"] 1 "courses" "not authorized on courses"
              (run_result _ _ _ _))
    as (H1 & _ & _ & H4 & H5 & _ & H7 & H8).
  - vm_compute. find_event.
  - reflexivity.
  - repeat constructor.
  - reflexivity.
  - repeat split; assumption.
Defined.

(** An argument that is not a force flag changes nothing, and with [-f]
    nothing is asked. *)
Lemma C10_only_force_flags_matter_witness :
  force ["reset_db.py"; "--verbose"; "-f"] = true
  ∧ run ∅ ["reset_db.py"; "-f"] sound_driver (state_of two_collections [])
    = run ∅ ["reset_db.py"; "--verbose"; "-f"] sound_driver
        (state_of two_collections [])
  ∧ Forall (λ e, is_input e = false)
      (run ∅ ["reset_db.py"; "--verbose"; "-f"] sound_driver
         (state_of two_collections ["no"])).2
  ∧ stdin
      (run ∅ ["reset_db.py"; "--verbose"; "-f"] sound_driver
         (state_of two_collections ["no"])).1.2
    = ["no"].
Proof.
  destruct (C10_only_force_flags_matter ["reset_db.py"; "--verbose"; "-f"])
    as (Hflag & _ & Hignored & _ & Hforce).
  assert (Hin : "--force" ∈ ["reset_db.py"; "--verbose"; "-f"]
                ∨ "-f" ∈ ["reset_db.py"; "--verbose"; "-f"]).
  { right. do 2 apply list_elem_of_further. apply list_elem_of_here. }
  split; [by apply Hflag|]. split.
  - apply (Hignored ∅ sound_driver (state_of two_collections [])
             ["reset_db.py"] "--verbose" ["-f"]);
      [reflexivity | discriminate | discriminate].
  - destruct (Hforce ∅ sound_driver (state_of two_collections ["no"]))
      as (code & s' & t & Hrun & Hasked & Hreset & _).
    rewrite Hrun. cbn [fst snd]. split; [by apply Hasked|].
    destruct (Hreset Hin) as (b & t1 & Heq & _).
    assert (Hs : (reset_database ∅ sound_driver
                    (state_of two_collections ["no"])).1.2 = s')
      by (by rewrite Heq).
    rewrite <- Hs. vm_compute. reflexivity.
Defined.

(** * Further properties *)

(** ** What [reset_database] does to the server *)

Lemma reset_path_server drv uri srv b srv' t :
  reset_path drv uri srv b srv' t ->
  srv' = drop_all (db_name uri) (dropped t) srv.
Proof. destruct 1; by observe. Qed.

Lemma filter_out_all (names : list string) :
  filter (λ x, x ∉ names) names = [].
Proof.
  assert (H : ∀ l, (∀ x, x ∈ l -> x ∈ names) ->
                filter (λ x, x ∉ names) l = []);
    [|by apply H].
  induction l as [|x l IH]; intros Hin; [reflexivity|].
  rewrite filter_cons_False.
  - apply IH. intros y Hy. apply Hin. by apply list_elem_of_further.
  - intros Hx. apply Hx, Hin, list_elem_of_here.
Qed.

(** X1: a call of [reset_database] takes, out of the database whose name
    [db_name] computes from the URI, exactly the collections whose drop
    returned; it leaves every database of another name as it was, and reads
    nothing from standard input.  (That database is the one of the URI's path
    only for URIs as in [db_name_of_plain_uri]; see C9.) *)
Theorem reset_database_scope environ drv s :
  ∃ b s1 t1,
    reset_database environ drv s = (Return b, s1, t1)
    ∧ collections_of (server s1) (db_name (MONGODB_URI environ))
      = filter (λ x, x ∉ dropped t1)
          (collections_of (server s) (db_name (MONGODB_URI environ)))
    ∧ (∀ db', db' ≠ db_name (MONGODB_URI environ) ->
         server s1 !! db' = server s !! db')
    ∧ stdin s1 = stdin s.
Proof.
  destruct (reset_database_path environ drv s)
    as (b & srv' & t & Hrun & Hpath).
  exists b, (mkState srv' (stdin s) (locals s)), t.
  split; [exact Hrun|]. cbn [server stdin].
  rewrite (reset_path_server _ _ _ _ _ _ Hpath).
  split; [apply collections_of_drop_all|].
  split; [|reflexivity].
  intros db' Hne. by apply other_databases_drop_all.
Qed.

Lemma reset_database_scope_witness :
  ∃ b s1 t1,
    reset_database ∅ courses_locked
      (state_of {[ "edu-resource" := ["users"; "courses"];
                   "billing" := ["invoices"] ]} [])
    = (Return b, s1, t1)
    ∧ collections_of (server s1) "edu-resource" = ["courses"]
    ∧ server s1 !! "billing" = Some ["invoices"].
Proof.
  destruct (reset_database_scope ∅ courses_locked
              (state_of {[ "edu-resource" := ["users"; "courses"];
                           "billing" := ["invoices"] ]} []))
    as (b & s1 & t1 & Hrun & Hleft & Hother & _).
  exists b, s1, t1. split; [exact Hrun|].
  assert (Ht : t1 = (reset_database ∅ courses_locked
                       (state_of {[ "edu-resource" := ["users"; "courses"];
                                    "billing" := ["invoices"] ]} [])).2)
    by (by rewrite Hrun).
  split.
  - rewrite Ht in Hleft. exact Hleft.
  - rewrite (Hother "billing"); [reflexivity | discriminate].
Defined.

Lemma reset_path_true drv uri srv srv' t :
  reset_path drv uri srv true srv' t ->
  collections_of srv' (db_name uri) = []
  ∧ dropped t = collections_of srv (db_name uri)
  ∧ raised t = []
  ∧ closes t = 1.
Proof.
  intros Hpath.
  rewrite (reset_path_server _ _ _ _ _ _ Hpath), collections_of_drop_all.
  inversion Hpath as [| | | | ? ? ? ? Hnone
                     | names ? ? ? ? Hnames | ]; subst.
  - rewrite Hnone. by observe.
  - observe. by rewrite filter_out_all.
Qed.

(** X2: when [reset_database] returns [True], no driver call raised, the
    connection was closed, every collection the database held was dropped,
    and the database is left without collections. *)
Theorem reset_database_true_means_empty environ drv s s1 t1 :
  reset_database environ drv s = (Return true, s1, t1) ->
  collections_of (server s1) (db_name (MONGODB_URI environ)) = []
  ∧ dropped t1 = collections_of (server s) (db_name (MONGODB_URI environ))
  ∧ raised t1 = []
  ∧ closes t1 = 1.
Proof.
  intros Hrun.
  destruct (reset_database_path environ drv s)
    as (b & srv' & t & Heq & Hpath).
  rewrite Hrun in Heq. simplify_eq. cbn [server].
  by eapply reset_path_true.
Qed.

Lemma reset_database_true_means_empty_witness :
  let r := reset_database ∅ sound_driver (state_of two_collections []) in
  r.1.1 = Return true
  ∧ collections_of (server r.1.2) "edu-resource" = []
  ∧ dropped r.2 = ["users"; "courses"].
Proof.
  assert (Hrun : reset_database ∅ sound_driver (state_of two_collections [])
                 = (Return true,
                    (reset_database ∅ sound_driver
                       (state_of two_collections [])).1.2,
                    (reset_database ∅ sound_driver
                       (state_of two_collections [])).2))
    by (vm_compute; reflexivity).
  destruct (reset_database_true_means_empty _ _ _ _ _ Hrun)
    as (Hempty & Hdropped & _).
  split; [by rewrite Hrun|]. split; [exact Hempty | exact Hdropped].
Defined.

(** X3: a second call, after one that returned [True], finds nothing to do:
    if the driver lets it connect, look the database up, ping and list, it
    returns [True] again, invokes no drop, reports the database as already
    empty and leaves the state as it found it. *)
Theorem reset_database_again environ drv drv' s s1 t1 :
  reset_database environ drv s = (Return true, s1, t1) ->
  connect_error drv' (MONGODB_URI environ) = None ->
  database_error drv' (db_name (MONGODB_URI environ)) = None ->
  ping_error drv' = None ->
  list_error drv' = None ->
  ∃ t2,
    reset_database environ drv' s1 = (Return true, s1, t2)
    ∧ drops t2 = []
    ∧ EvList (Ok []) ∈ t2
    ∧ EvPrint empty_line ∈ t2.
Proof.
  intros Hrun Hconnect Hdatabase Hping Hlist.
  assert (Hempty : collections_of (server s1) (db_name (MONGODB_URI environ))
                   = []).
  { destruct (reset_database_path environ drv s)
      as (b0 & srv0 & t0 & Heq0 & Hpath0).
    rewrite Hrun in Heq0. simplify_eq. cbn [server].
    by destruct (reset_path_true _ _ _ _ _ Hpath0). }
  destruct (reset_database_path environ drv' s1)
    as (b & srv' & t & Heq & Hpath).
  exists t.
  destruct Hpath as [| | | | Hc Hd Hp Hl Hnone
                    | names Hc Hd Hp Hl Hnames Hne Hall
                    | pre c post msg Hc Hd Hp Hl Hnames Hall Hraise];
    try congruence.
  - split; [by destruct s1|]. split; [by observe|].
    split; find_in_path.
  - rewrite Hempty in Hnames. by destruct pre.
Qed.

Lemma reset_database_again_witness :
  let s1 := (reset_database ∅ sound_driver
               (state_of two_collections [])).1.2 in
  ∃ t2,
    reset_database ∅ users_locked s1 = (Return true, s1, t2)
    ∧ drops t2 = [].
Proof.
  assert (Hrun : reset_database ∅ sound_driver (state_of two_collections [])
                 = (Return true,
                    (reset_database ∅ sound_driver
                       (state_of two_collections [])).1.2,
                    (reset_database ∅ sound_driver
                       (state_of two_collections [])).2))
    by (vm_compute; reflexivity).
  destruct (reset_database_again ∅ sound_driver users_locked _ _ _ Hrun
              eq_refl eq_refl eq_refl eq_refl) as (t2 & H2 & Hd & _).
  exists t2. split; [exact H2 | exact Hd].
Defined.

(** ** The drops follow the listing *)

Lemma reset_path_drops drv uri srv b srv' t :
  reset_path drv uri srv b srv' t ->
  (∃ names,
     listed t = [Ok names]
     ∧ names = collections_of srv (db_name uri)
     ∧ drops t `prefix_of` names
     ∧ dropped t `prefix_of` drops t
     ∧ (length (drops t) ≤ S (length (dropped t)))%nat)
  ∨ ((∀ names, Ok names ∉ listed t) ∧ drops t = []).
Proof.
  destruct 1 as [| | | | Hc Hd Hp Hl Hnone
                | names Hc Hd Hp Hl Hnames
                | pre c post msg Hc Hd Hp Hl Hnames].
  1-4: right; split; [|by observe];
    intros names Hin; observe_in Hin; elem_cases Hin; discriminate.
  - left. exists []. observe. rewrite Hnone. repeat split; [reflexivity.. | lia].
  - left. exists names. observe.
    split; [reflexivity|]. split; [by symmetry|].
    split; [reflexivity|]. split; [reflexivity | lia].
  - left. exists (pre ++ c :: post). observe.
    split; [reflexivity|]. split; [by symmetry|].
    split; [exists post; by rewrite <- (assoc_L (++))|].
    split; [by exists [c]|].
    rewrite length_app. cbn [length]. lia.
Qed.

(** X4: the collections on which a drop is invoked are a front part of what the
    listing call answered, in its order and without gaps; the listing is what
    the database held; only the last drop invoked can have raised; and
    without a listing nothing is dropped. *)
Theorem drops_follow_listing environ drv s :
  ∃ b s1 t1,
    reset_database environ drv s = (Return b, s1, t1)
    ∧ ((∃ names,
          listed t1 = [Ok names]
          ∧ names
            = collections_of (server s) (db_name (MONGODB_URI environ))
          ∧ drops t1 `prefix_of` names
          ∧ dropped t1 `prefix_of` drops t1
          ∧ (length (drops t1) ≤ S (length (dropped t1)))%nat)
       ∨ ((∀ names, Ok names ∉ listed t1) ∧ drops t1 = [])).
Proof.
  destruct (reset_database_path environ drv s)
    as (b & srv' & t & Hrun & Hpath).
  exists b, (mkState srv' (stdin s) (locals s)), t.
  split; [exact Hrun | by eapply reset_path_drops].
Qed.

(** ** The transcript of [reset_database] *)

Ltac observe_more_lines :=
  unfold complete_lines, cancelled_lines; observe_lines.

Lemma reset_path_announces drv uri srv b srv' t names :
  reset_path drv uri srv b srv' t ->
  Ok names ∈ listed t ->
  names ≠ [] ->
  ∃ t0 t2,
    t = t0 ++ EvPrint (found_line (length names))
           :: (EvPrint ∘ listed_line <$> names)
           ++ EvPrint dropping_line :: t2
    ∧ drops t0 = [].
Proof.
  intros Hpath Hin Hne.
  destruct Hpath as [| | | | Hc Hd Hp Hl Hnone
                    | names' Hc Hd Hp Hl Hnames
                    | pre c post msg Hc Hd Hp Hl Hnames];
    observe_in Hin; elem_cases Hin; simplify_eq.
  - exists (opening uri ++ [EvPing (Ok tt); EvPrint connected_line;
                            EvList (Ok (collections_of srv (db_name uri)))]),
      (dropping (collections_of srv (db_name uri))
       ++ complete (db_name uri) ++ closing).
    split; [unfold listing; by norm_trace | by observe].
  - exists (opening uri ++ [EvPing (Ok tt); EvPrint connected_line;
                            EvList (Ok (pre ++ c :: post))]),
      (dropping pre ++ [EvDrop c (Err msg); EvPrint (error_line msg)]
       ++ closing).
    split; [unfold listing; by norm_trace | by observe].
Qed.

(** X5: before the first drop is invoked, [reset_database] has printed how many
    collections the listing call answered and the name of each, in the
    order in which it then drops them. *)
Theorem collections_announced environ drv s :
  ∃ b s1 t1,
    reset_database environ drv s = (Return b, s1, t1)
    ∧ ∀ names,
        Ok names ∈ listed t1 -> names ≠ [] ->
        ∃ t0 t2,
          t1 = t0 ++ EvPrint (found_line (length names))
                  :: (EvPrint ∘ listed_line <$> names)
                  ++ EvPrint dropping_line :: t2
          ∧ drops t0 = []
          ∧ drops t2 `prefix_of` names.
Proof.
  destruct (reset_database_path environ drv s)
    as (b & srv' & t & Hrun & Hpath).
  exists b, (mkState srv' (stdin s) (locals s)), t.
  split; [exact Hrun|]. intros names Hin Hne.
  destruct (reset_path_announces _ _ _ _ _ _ _ Hpath Hin Hne)
    as (t0 & t2 & Heq & Hnone).
  exists t0, t2. split; [exact Heq|]. split; [exact Hnone|].
  destruct (reset_path_drops _ _ _ _ _ _ Hpath)
    as [(names' & Hlisted & _ & Hprefix & _) | [Hno _]];
    [|by apply Hno in Hin].
  rewrite Hlisted, list_elem_of_singleton in Hin. simplify_eq.
  revert Hprefix. unfold drops.
  rewrite bind_app, bind_cons, bind_app, bind_cons.
  fold (drops t0). rewrite Hnone.
  rewrite (obs_prints _ (λ _, eq_refl)). cbn [app]. done.
Qed.

Lemma reset_path_complete drv uri srv b srv' t :
  reset_path drv uri srv b srv' t ->
  complete_lines t
  = if b && bool_decide (dropped t ≠ []) then [complete_line] else [].
Proof.
  destruct 1 as [| | | | Hc Hd Hp Hl Hnone
                | names Hc Hd Hp Hl Hnames Hne
                | pre c post msg Hc Hd Hp Hl Hnames];
    cbn [andb]; try by observe_more_lines.
  replace (bool_decide _) with true; [by observe_more_lines|].
  symmetry. apply bool_decide_eq_true. observe. by destruct names.
Qed.

(** X6: the line that reports the reset as complete is printed once, and only
    by a call that returns [True] after at least one drop: never after a
    driver call raised, and never for a database that held no collection. *)
Theorem completion_line environ drv s :
  ∃ b s1 t1,
    reset_database environ drv s = (Return b, s1, t1)
    ∧ complete_lines t1
      = (if b && bool_decide (dropped t1 ≠ []) then [complete_line] else [])
    ∧ (raised t1 ≠ [] -> complete_lines t1 = [])
    ∧ (collections_of (server s) (db_name (MONGODB_URI environ)) = [] ->
       complete_lines t1 = []).
Proof.
  destruct (reset_database_path environ drv s)
    as (b & srv' & t & Hrun & Hpath).
  exists b, (mkState srv' (stdin s) (locals s)), t.
  split; [exact Hrun|].
  rewrite (reset_path_complete _ _ _ _ _ _ Hpath).
  split; [reflexivity|]. split.
  - intros Hraised. destruct b; [|reflexivity].
    by destruct (reset_path_true _ _ _ _ _ Hpath) as (_ & _ & Hr & _).
  - intros Hnone. destruct b; [|reflexivity].
    destruct (reset_path_true _ _ _ _ _ Hpath) as (_ & Hd & _).
    rewrite Hd, Hnone. reflexivity.
Qed.

(** ** The prompt of [confirm_reset] *)

Lemma prompts_no_input (t : list event) :
  Forall (λ e, is_input e = false) t -> prompts t = [].
Proof.
  unfold prompts. induction 1 as [|e t He _ IH]; [reflexivity|].
  rewrite bind_cons, IH. by destruct e.
Qed.

Lemma prompts_app (t1 t2 : list event) :
  prompts (t1 ++ t2) = prompts t1 ++ prompts t2.
Proof. apply bind_app. Qed.

(** X7: [confirm_reset] reads one line and returns [True] exactly when that
    line is the three bytes of [YES] between two runs of whitespace; it
    names the URI in its warning, asks one question, calls the driver for
    nothing and leaves the server as it is, whatever the database holds. *)
Theorem confirm_reset_accepts environ s response rest :
  stdin s = response :: rest ->
  ∃ b t,
    confirm_reset environ s = (Return b, set_stdin rest s, t)
    ∧ (b = true
       ↔ ∃ l r, whitespace l ∧ whitespace r
                ∧ list_ascii_of_string response
                  = l ++ list_ascii_of_string "YES" ++ r)
    ∧ prompts t = [prompt_line]
    ∧ Forall (λ e, is_driver_call e = false) t
    ∧ EvPrint (nl +:+ "This will DELETE ALL DATA from: "
                  +:+ MONGODB_URI environ) ∈ t.
Proof.
  intros Hin.
  exists (bool_decide (strip response = "YES")),
    (warning (MONGODB_URI environ)).
  split; [by apply confirm_reset_answer|].
  split; [by rewrite bool_decide_eq_true, strip_YES_iff|].
  split; [reflexivity|].
  split; [apply warning_console | find_in_path].
Qed.

Lemma confirm_reset_accepts_witness :
  ∃ t,
    confirm_reset ∅ (state_of two_collections [" YES  "; "no"])
    = (Return true, state_of two_collections ["no"], t).
Proof.
  destruct (confirm_reset_accepts ∅
              (state_of two_collections [" YES  "; "no"]) " YES  " ["no"]
              eq_refl) as (b & t & Hrun & Hb & _).
  exists t. rewrite Hrun. f_equal. f_equal. f_equal. apply Hb.
  exists [" "%char], [" "; " "]%char.
  split; [by repeat constructor|].
  split; [by repeat constructor | reflexivity].
Defined.

(** ** The runs of [main] *)

Section RunEquations.

Variable environ : gmap string string.
Variable argv : list string.
Variable drv : driver.

Lemma run_forced_eq (s : state) b s1 t1 :
  force argv = true ->
  reset_database environ drv s = (Return b, s1, t1) ->
  run environ argv drv s = (status_of b, s1, banner ++ t1).
Proof.
  intros Hforce Hreset.
  unfold run, main. do 3 mstep. rewrite bind_run, Hforce. cbn [negb].
  rewrite ret_run. cbv beta iota. rewrite bind_run, Hreset.
  destruct b; exit_run.
Qed.

Lemma run_confirmed_eq (s : state) response rest b s1 t1 :
  force argv = false ->
  stdin s = response :: rest ->
  strip response = "YES" ->
  reset_database environ drv (set_stdin rest s) = (Return b, s1, t1) ->
  run environ argv drv s
  = (status_of b, s1, banner ++ warning (MONGODB_URI environ) ++ t1).
Proof.
  intros Hforce Hin Hyes Hreset.
  unfold run, main. do 3 mstep. rewrite bind_run, Hforce. cbn [negb].
  rewrite bind_run, (confirm_reset_answer environ s response rest Hin).
  cbv beta iota. rewrite (bool_decide_eq_true_2 _ Hyes). cbn [negb].
  rewrite ret_run. cbv beta iota. rewrite bind_run, Hreset.
  destruct b; exit_run.
Qed.

End RunEquations.

(** X8: answering the prompt with YES has the effect of the force flag: the run
    is the forced run on the rest of standard input, with the warning and
    the prompt shown after the banner. *)
Theorem confirmed_like_forced environ argv argv' drv s response rest :
  force argv = false ->
  force argv' = true ->
  stdin s = response :: rest ->
  strip response = "YES" ->
  ∃ code s' t,
    run environ argv' drv (set_stdin rest s) = (code, s', banner ++ t)
    ∧ run environ argv drv s
      = (code, s', banner ++ warning (MONGODB_URI environ) ++ t).
Proof.
  intros Hno Hforce Hin Hyes.
  destruct (reset_database_path environ drv (set_stdin rest s))
    as (b & srv' & t & Hreset & _).
  eexists (status_of b), _, t. split.
  - by apply run_forced_eq.
  - by eapply run_confirmed_eq.
Qed.

Lemma confirmed_like_forced_witness :
  ∃ code s' t,
    run ∅ ["reset_db.py"; "-f"] users_locked (state_of two_collections [])
    = (code, s', banner ++ t)
    ∧ run ∅ ["reset_db.py"] users_locked (state_of two_collections ["YES"])
      = (code, s', banner ++ warning (MONGODB_URI ∅) ++ t).
Proof.
  apply (confirmed_like_forced ∅ ["reset_db.py"] ["reset_db.py"; "-f"]
           users_locked (state_of two_collections ["YES"]) "YES" []);
    reflexivity.
Defined.

(** X9: when standard input is at its end and the force flag is not given, the
    [EOFError] of [input] is caught by nothing: the process ends with
    status 1 after the prompt, without the cancellation line, without an
    error line, without a driver call, and with the state it started
    from. *)
Theorem run_end_of_input environ argv drv s :
  force argv = false ->
  stdin s = [] ->
  ∃ t,
    run environ argv drv s = (1%Z, s, t)
    ∧ (∃ t0, t = t0 ++ [EvInput prompt_line])
    ∧ Forall (λ e, is_driver_call e = false) t
    ∧ error_lines t = []
    ∧ cancelled_lines t = [].
Proof.
  intros Hforce Hin.
  destruct (run_follows_path environ argv drv s)
    as (code & s' & t & Hrun & Hpath).
  destruct Hpath as [b srv' t Hf Hpath | Hf Hnil
                    | r rest Hf Hin' Hno | r rest b srv' t Hf Hin' Hyes Hpath];
    try congruence.
  exists (banner ++ warning (MONGODB_URI environ)).
  split; [exact Hrun|].
  split; [unfold warning; ends_with|].
  split; [apply Forall_app;
          split; [apply banner_console | apply warning_console]|].
  split; by observe_more_lines.
Qed.

Lemma run_end_of_input_witness :
  ∃ t,
    run ∅ ["reset_db.py"; "--yes"] sound_driver (state_of two_collections [])
    = (1%Z, state_of two_collections [], t).
Proof.
  destruct (run_end_of_input ∅ ["reset_db.py"; "--yes"] sound_driver
              (state_of two_collections []) eq_refl eq_refl)
    as (t & Hrun & _).
  by exists t.
Defined.

Lemma reset_path_no_cancel drv uri srv b srv' t :
  reset_path drv uri srv b srv' t -> cancelled_lines t = [].
Proof. destruct 1; by observe_more_lines. Qed.

Lemma cancelled_lines_app (t1 t2 : list event) :
  cancelled_lines (t1 ++ t2) = cancelled_lines t1 ++ cancelled_lines t2.
Proof. unfold cancelled_lines. by rewrite prints_app, List.filter_app. Qed.

(** X10: a run asks for at most one line of standard input, at the confirmation
    prompt and only without the force flag; it prints the cancellation line
    exactly when that line was read and is not YES, and then as the last
    thing it does. *)
Theorem run_reads_one_line environ argv drv s :
  ∃ code s' t,
    run environ argv drv s = (code, s', t)
    ∧ prompts t = (if force argv then [] else [prompt_line])
    ∧ stdin s' = (if force argv then stdin s else tail (stdin s))
    ∧ locals s' = locals s
    ∧ (cancelled_lines t = [cancelled_line]
       ↔ force argv = false
         ∧ ∃ response, head (stdin s) = Some response
                       ∧ strip response ≠ "YES")
    ∧ (cancelled_lines t = [cancelled_line] ∨ cancelled_lines t = [])
    ∧ (cancelled_lines t = [cancelled_line] ->
       code = 0%Z ∧ ∃ t0, t = t0 ++ [EvPrint cancelled_line]).
Proof.
  destruct (run_follows_path environ argv drv s)
    as (code & s' & t & Hrun & Hpath).
  exists code, s', t. split; [exact Hrun|].
  assert (Hbanner : cancelled_lines banner = []) by by observe_more_lines.
  assert (Hwarning : cancelled_lines (warning (MONGODB_URI environ)) = [])
    by by observe_more_lines.
  destruct Hpath as [b srv' t Hf Hpath | Hf Hnil
                    | r rest Hf Hin Hno | r rest b srv' t Hf Hin Hyes Hpath];
    rewrite Hf; cbn [stdin locals];
    rewrite ?prompts_app, ?cancelled_lines_app, ?Hbanner, ?Hwarning,
      ?(reset_path_no_cancel _ _ _ _ _ _ Hpath),
      ?(prompts_no_input _ (reset_path_no_input _ _ _ _ _ _ Hpath)),
      ?(prompts_no_input _ banner_no_input);
    cbn [app].
  - split; [reflexivity|]. split; [reflexivity|]. split; [reflexivity|].
    split; [split; [discriminate | by intros [? _]]|].
    split; [by right | discriminate].
  - rewrite Hnil. split; [reflexivity|]. split; [reflexivity|].
    split; [reflexivity|].
    split; [split; [discriminate | by intros (_ & ? & ? & _)]|].
    split; [by right | discriminate].
  - rewrite Hin. split; [reflexivity|]. split; [reflexivity|].
    split; [reflexivity|].
    split; [split; [intros _; split; [reflexivity | by exists r]
                   | reflexivity]|].
    split; [by left|]. intros _. split; [reflexivity|].
    exists (banner ++ warning (MONGODB_URI environ)).
    by rewrite <- (assoc_L (++)).
  - rewrite Hin. split; [reflexivity|]. split; [reflexivity|].
    split; [reflexivity|].
    split; [split; [discriminate
                   | intros (_ & x & Hx & Hno); cbn [head] in Hx;
                     by simplify_eq]|].
    split; [by right | discriminate].
Qed.

(** ** The shape of the database name *)

Lemma append_cons (c : ascii) (s1 s2 : string) :
  String c s1 +:+ s2 = String c (s1 +:+ s2).
Proof. reflexivity. Qed.

Lemma append_assoc (s1 s2 s3 : string) :
  (s1 +:+ s2) +:+ s3 = s1 +:+ s2 +:+ s3.
Proof.
  induction s1 as [|c r IH]; [reflexivity|].
  by rewrite !append_cons, IH.
Qed.

Lemma append_empty_r (s : string) : s +:+ "" = s.
Proof.
  induction s as [|c r IH]; [reflexivity|]. by rewrite append_cons, IH.
Qed.

Lemma split_fields_without_sep (sep : ascii) (s : string) :
  Forall (λ f, has_char sep f = false) (split sep s).
Proof.
  induction s as [|c r IH]; cbn [split]; [by repeat constructor|].
  destruct (Ascii.eqb c sep) eqn:Hc; [by constructor|].
  destruct IH as [|f fs Hf Hfs].
  - repeat constructor. cbn [has_char]. by rewrite Hc.
  - constructor; [|exact Hfs]. cbn [has_char]. by rewrite Hc, Hf.
Qed.

Lemma split_last_without_sep (sep : ascii) (s l : string) :
  last (split sep s) = Some l -> has_char sep l = false.
Proof.
  intros Hlast.
  pose proof (split_fields_without_sep sep s) as Hall.
  rewrite Forall_forall in Hall. apply Hall.
  apply last_Some in Hlast as [l' ->].
  apply elem_of_app. right. apply list_elem_of_here.
Qed.

(** The first field of a split starts the text; what follows it, if
    anything, starts with the separator. *)
Lemma split_head (sep : ascii) (s : string) :
  ∃ f post,
    head (split sep s) = Some f
    ∧ s = f +:+ post
    ∧ (post = "" ∨ ∃ q, post = String sep q).
Proof.
  induction s as [|c r IH]; cbn [split].
  - exists "", "". split; [reflexivity|]. split; [reflexivity | by left].
  - destruct (Ascii.eqb c sep) eqn:Hc.
    + apply Ascii.eqb_eq in Hc as ->.
      exists "", (String sep r).
      split; [reflexivity|]. split; [reflexivity|]. right. by exists r.
    + destruct IH as (f & post & Hhead & Heq & Hpost).
      destruct (split sep r) as [|f' fs]; [discriminate|].
      cbn [head] in Hhead. simplify_eq.
      exists (String c f), post. split; [reflexivity|].
      split; [by rewrite append_cons | exact Hpost].
Qed.

(** The last field of a split ends the text; what precedes it, if
    anything, ends with the separator. *)
Lemma split_last (sep : ascii) (s : string) :
  ∃ pre l,
    last (split sep s) = Some l
    ∧ s = pre +:+ l
    ∧ (pre = "" ∨ ∃ p, pre = p +:+ String sep "").
Proof.
  induction s as [|c r IH]; cbn [split].
  - exists "", "". split; [reflexivity|]. split; [reflexivity | by left].
  - destruct IH as (pre & l & Hlast & Heq & Hpre).
    pose proof (split_last_without_sep sep r l Hlast) as Hl.
    destruct (Ascii.eqb c sep) eqn:Hc.
    + apply Ascii.eqb_eq in Hc as ->.
      exists (String sep pre), l.
      split; [destruct (split sep r); [discriminate | exact Hlast]|].
      split; [by rewrite append_cons, <- Heq|].
      right. destruct Hpre as [-> | [p ->]]; [by exists ""|].
      by exists (String sep p).
    + destruct Hpre as [-> | [p ->]].
      * change ("" +:+ l) with l in Heq. subst r.
        rewrite (split_without_sep sep l Hl).
        exists "", (String c l).
        split; [reflexivity|]. split; [reflexivity | by left].
      * exists (String c (p +:+ String sep "")), l.
        split.
        -- rewrite Heq, append_assoc in Hlast |- *.
           change (String sep "" +:+ l) with (String sep l) in Hlast |- *.
           rewrite split_app_sep in Hlast |- *.
           rewrite (split_without_sep sep l Hl).
           pose proof (split_not_nil sep p).
           destruct (split sep p) as [|x xs]; [done|].
           change ((x :: xs) ++ [l]) with (x :: xs ++ [l]). cbv beta iota.
           change (String c x :: xs ++ [l]) with ((String c x :: xs) ++ [l]).
           by rewrite last_snoc.
        -- split; [by rewrite append_cons, <- Heq|].
           right. by exists (String c p).
Qed.

(** X12: [db_name] yields [name] exactly for a URI that reads
    [pre + name + post] where [pre] is empty or ends with ['/'], [post] is
    empty or starts with ['?'], neither [name] nor [post] holds a ['/'] and
    [name] holds no ['?']: the name is the text after the last ['/'] of the
    URI, wherever that is, up to the next ['?']. *)
Theorem db_name_shape (uri name : string) :
  db_name uri = name
  ↔ ∃ pre post,
      uri = pre +:+ name +:+ post
      ∧ (pre = "" ∨ ∃ p, pre = p +:+ "/")
      ∧ (post = "" ∨ ∃ q, post = String "?" q)
      ∧ has_char "/" name = false
      ∧ has_char "?" name = false
      ∧ has_char "/" post = false.
Proof.
  split.
  - intros <-. unfold db_name.
    destruct (split_last "/" uri) as (pre & l & Hlast & Huri & Hpre).
    destruct (split_head "?" l) as (f & post & Hhead & Hl & Hpost).
    pose proof (split_last_without_sep "/" uri l Hlast) as Hslash.
    rewrite Hlast. cbn [default from_option id]. rewrite Hhead.
    cbn [default from_option id].
    rewrite Hl, has_char_app in Hslash.
    apply orb_false_elim in Hslash as [Hf Hp].
    exists pre, post. split; [by rewrite Huri, Hl|].
    split; [exact Hpre|]. split; [exact Hpost|].
    split; [exact Hf|]. split; [|exact Hp].
    pose proof (split_fields_without_sep "?" l) as Hall.
    destruct (split "?" l) as [|x xs]; [discriminate|].
    cbn [head] in Hhead. simplify_eq. by apply Forall_inv in Hall.
  - intros (pre & post & -> & Hpre & Hpost & Hslash & Hquestion & Hpslash).
    assert (Hlast : last (split "/" (pre +:+ name +:+ post))
                    = Some (name +:+ post)).
    { assert (Hrest : has_char "/" (name +:+ post) = false)
        by by rewrite has_char_app, Hslash, Hpslash.
      destruct Hpre as [-> | [p ->]].
      - change ("" +:+ name +:+ post) with (name +:+ post).
        by rewrite (split_without_sep _ _ Hrest).
      - rewrite append_assoc.
        change ("/" +:+ name +:+ post) with (String "/" (name +:+ post)).
        by rewrite split_app_sep, (split_without_sep _ _ Hrest), last_snoc. }
    unfold db_name. rewrite Hlast. cbn [default from_option id].
    destruct Hpost as [-> | [q ->]].
    + by rewrite append_empty_r, (split_without_sep _ _ Hquestion).
    + by rewrite split_app_sep, (split_without_sep _ _ Hquestion).
Qed.

(** ** [reset_with_seed] *)

Lemma lower_byte_y (c : ascii) :
  Ascii.eqb (lower_byte c) "y" = Ascii.eqb c "y" || Ascii.eqb c "Y".
Proof. by destruct c as [[] [] [] [] [] [] [] []]. Qed.

(** Only [y] and [Y] are [y] in lower case. *)
Lemma lower_y (response : string) :
  lower response = "y" ↔ response = "y" ∨ response = "Y".
Proof.
  destruct response as [|c [|c' r]]; cbn [lower].
  - split; [discriminate | by intros [|]].
  - pose proof (lower_byte_y c) as Hc. split.
    + intros [= H]. rewrite H, Ascii.eqb_refl in Hc.
      symmetry in Hc. apply orb_true_iff in Hc as [Hc | Hc];
        apply Ascii.eqb_eq in Hc as ->; [by left | by right].
    + by intros [[= ->] | [= ->]].
  - split; [discriminate | by intros [|]].
Qed.

(** The frame of the caller does not matter to [reset_database]. *)
Lemma reset_database_locals environ drv (s : state) (l : gset string)
    b s1 t1 :
  reset_database environ drv s = (Return b, s1, t1) ->
  reset_database environ drv (set_locals l s)
  = (Return b, set_locals l s1, t1).
Proof.
  unfold reset_database, call. destruct s as [srv inp loc].
  unfold set_locals. cbn [server stdin locals].
  destruct (try_finally _ _ _) as [[o s2] t2].
  intros H. by simplify_eq.
Qed.

(** X13: [reset_with_seed] asks its question whatever [reset_database] returned,
    also after a failed reset, and takes the next line as it is, without
    removing whitespace: on ASCII text, it prints the hint exactly for the
    answers [y] and [Y].  The server is left as [reset_database] left it. *)
Theorem reset_with_seed_answer environ drv s response rest :
  stdin s = response :: rest ->
  is_ascii response = true ->
  ∃ b s1 t1,
    reset_database environ drv s = (Return b, s1, t1)
    ∧ reset_with_seed environ drv s
      = (Return tt, set_stdin rest s1,
         t1 ++ EvInput seed_prompt
            :: (if bool_decide (response = "y" ∨ response = "Y")
                then [EvPrint seed_hint] else [])).
Proof.
  intros Hin _.
  destruct (reset_database_path environ drv s)
    as (b & srv' & t & Hrun & _).
  exists b, (mkState srv' (stdin s) (locals s)), t.
  split; [exact Hrun|].
  unfold reset_with_seed, call.
  rewrite bind_run, (reset_database_locals _ _ _ _ _ _ _ Hrun).
  cbv beta iota. rewrite bind_run. unfold input at 1.
  unfold set_locals, set_stdin. cbn [server stdin locals]. rewrite Hin.
  cbv beta iota.
  rewrite (bool_decide_ext _ _ (lower_y response)).
  destruct (bool_decide (response = "y" ∨ response = "Y"));
    [rewrite print_run | rewrite ret_run]; reflexivity.
Qed.

Lemma reset_with_seed_answer_witness :
  ∃ s1 t1,
    reset_database ∅ unreachable (state_of two_collections ["Y"; "n"])
    = (Return false, s1, t1)
    ∧ reset_with_seed ∅ unreachable (state_of two_collections ["Y"; "n"])
      = (Return tt, set_stdin ["n"] s1,
         t1 ++ [EvInput seed_prompt; EvPrint seed_hint]).
Proof.
  destruct (reset_with_seed_answer ∅ unreachable
              (state_of two_collections ["Y"; "n"]) "Y" ["n"]
              eq_refl eq_refl) as (b & s1 & t1 & Hreset & Hseed).
  exists s1, t1. split; [|exact Hseed].
  rewrite Hreset. f_equal. f_equal. f_equal.
  assert (Hb : (reset_database ∅ unreachable
                  (state_of two_collections ["Y"; "n"])).1.1 = Return b)
    by (by rewrite Hreset).
  vm_compute in Hb. by simplify_eq.
Defined.

(** X14: when standard input is at its end, [reset_with_seed] raises the
    [EOFError] of [input], after [reset_database] has done its work: what
    was dropped stays dropped. *)
Theorem reset_with_seed_end_of_input environ drv s :
  stdin s = [] ->
  ∃ b s1 t1,
    reset_database environ drv s = (Return b, s1, t1)
    ∧ reset_with_seed environ drv s
      = (Raise (Exception "EOF when reading a line"), s1,
         t1 ++ [EvInput seed_prompt]).
Proof.
  intros Hin.
  destruct (reset_database_path environ drv s)
    as (b & srv' & t & Hrun & _).
  exists b, (mkState srv' (stdin s) (locals s)), t.
  split; [exact Hrun|].
  unfold reset_with_seed, call.
  rewrite bind_run, (reset_database_locals _ _ _ _ _ _ _ Hrun).
  cbv beta iota. rewrite bind_run. unfold input at 1.
  unfold set_locals. cbn [server stdin locals]. rewrite Hin.
  reflexivity.
Qed.

Lemma reset_with_seed_end_of_input_witness :
  ∃ s1 t1,
    reset_with_seed ∅ sound_driver (state_of two_collections [])
    = (Raise (Exception "EOF when reading a line"), s1,
       t1 ++ [EvInput seed_prompt])
    ∧ collections_of (server s1) "edu-resource" = [].
Proof.
  destruct (reset_with_seed_end_of_input ∅ sound_driver
              (state_of two_collections []) eq_refl)
    as (b & s1 & t1 & Hreset & Hseed).
  exists s1, t1. split; [exact Hseed|].
  assert (Hs : (reset_database ∅ sound_driver
                  (state_of two_collections [])).1.2 = s1)
    by (by rewrite Hreset).
  rewrite <- Hs. vm_compute. reflexivity.
Defined.

(** ** What the exit status tells *)

(** X11: a run that ends with status 0 either was cancelled at the prompt,
    and then left the server as it was, or leaves the database whose name
    [db_name] computes from the URI without collections; a run that ends
    with status 1 either met the end of standard input at the prompt or had
    a driver call raise. *)
Theorem exit_status_meaning environ argv drv s :
  ∃ code s' t,
    run environ argv drv s = (code, s', t)
    ∧ (code = 0%Z ->
       (cancelled_lines t = [cancelled_line] ∧ server s' = server s)
       ∨ (cancelled_lines t = []
          ∧ collections_of (server s') (db_name (MONGODB_URI environ)) = []
          ∧ raised t = []))
    ∧ (code = 1%Z ->
       (force argv = false ∧ stdin s = [] ∧ s' = s)
       ∨ length (raised t) = 1%nat)
    ∧ (code = 0%Z ∨ code = 1%Z).
Proof.
  destruct (run_follows_path environ argv drv s)
    as (code & s' & t & Hrun & Hpath).
  exists code, s', t. split; [exact Hrun|].
  assert (Hbanner : cancelled_lines banner = []) by by observe_more_lines.
  assert (Hwarning : cancelled_lines (warning (MONGODB_URI environ)) = [])
    by by observe_more_lines.
  assert (Hbw : Forall (λ e, is_driver_call e = false)
                  (banner ++ warning (MONGODB_URI environ))).
  { apply Forall_app. split; [apply banner_console | apply warning_console]. }
  assert (Hreset : ∀ b srv srv' tr console,
            Forall (λ e, is_driver_call e = false) console ->
            cancelled_lines console = [] ->
            reset_path drv (MONGODB_URI environ) srv b srv' tr ->
            (status_of b = 0%Z ->
             cancelled_lines (console ++ tr) = []
             ∧ collections_of srv' (db_name (MONGODB_URI environ)) = []
             ∧ raised (console ++ tr) = [])
            ∧ (status_of b = 1%Z -> length (raised (console ++ tr)) = 1%nat)
            ∧ (status_of b = 0%Z ∨ status_of b = 1%Z)).
  { intros b srv srv' tr console Hconsole Hnone Hpath'.
    rewrite cancelled_lines_app, Hnone,
      (reset_path_no_cancel _ _ _ _ _ _ Hpath'),
      (raised_console _ _ Hconsole).
    destruct b; cbn [status_of].
    - destruct (reset_path_true _ _ _ _ _ Hpath') as (He & _ & Hr & _).
      split; [done|]. split; [discriminate | by left].
    - split; [discriminate|]. split; [|by right]. intros _.
      destruct (reset_path_errors _ _ _ _ _ _ Hpath') as (_ & Hle & Hiff).
      destruct (raised tr) as [|m [|m' r]]; cbn [length] in *;
        [|reflexivity|lia].
      by destruct (proj1 Hiff eq_refl). }
  destruct Hpath as [b srv' t Hf Hpath | Hf Hnil
                    | r rest Hf Hin Hno | r rest b srv' t Hf Hin Hyes Hpath].
  - destruct (Hreset _ _ _ _ banner banner_console Hbanner Hpath)
      as (H0 & H1 & H01).
    cbn [server]. split; [intros H; right; by apply H0|].
    split; [intros H; right; by apply H1 | exact H01].
  - split; [discriminate|]. split; [by left | by right].
  - split; [|split; [discriminate | by left]].
    intros _. left. rewrite !cancelled_lines_app, Hbanner, Hwarning.
    split; [by observe_more_lines | by destruct s].
  - rewrite (assoc_L (++)).
    destruct (Hreset _ _ _ _ (banner ++ warning (MONGODB_URI environ)) Hbw
                ltac:(by rewrite cancelled_lines_app, Hbanner, Hwarning)
                Hpath) as (H0 & H1 & H01).
    cbn [server]. split; [intros H; right; by apply H0|].
    split; [intros H; right; by apply H1 | exact H01].
Qed.
